(** * DORA Quick Check: the metrics classifier and the report-export handler

    A shallow embedding of
      - src/app/components/DoraQuickCheck.tsx  (module [DoraQuickCheck])
      - src/app/api/send-results/route.ts      (module [SendResults])
    with the part of the JavaScript number semantics they rely on
    (module [JS]).

    Numbers.  A JavaScript number is modelled as a rational, or one of
    NaN, +Infinity, -Infinity; every binary64 number is one of these.
    Subtraction, multiplication and division round their result to
    binary64 (to the nearest, ties to even, with gradual underflow, and
    overflow to an infinity), and a decimal literal that takes part in
    them denotes the binary64 number nearest to it ([JS.literal]).
    Comparisons, [Math.min], [Math.max] and [Math.round] are exact, as
    they are on binary64 numbers.  -0 is identified with +0.

    Of the component, the helpers, the thresholds, the four classifiers,
    the input handlers and the two memoised computations [validNumbers]
    and [metrics] are in module [DoraQuickCheck], the advisory text
    ([tierGapText]) and the wizard in module [DoraQuickCheckUI]; the badge
    ([tierBadge]) and the markup are not modelled.  The handler is
    modelled in full, with the built-ins of the host it calls taken as
    parameters. *)

From Stdlib Require Import QArith Qround Qminmax Qpower ZArith String List Bool Lia Lqa.
Import ListNotations.

Set Warnings "-register-all".

Declare Scope js_scope.
Delimit Scope js_scope with js.

(* ================================================================== *)
(** * JavaScript numbers *)
(* ================================================================== *)

Module JS.

Inductive number : Type :=
| Fin (q : Q)
| NaN
| PosInf
| NegInf.

Bind Scope js_scope with number.

(** Equality of numbers as values: rationals up to [Qeq]. *)
Definition numeq (x y : number) : Prop :=
  match x, y with
  | Fin a, Fin b => a == b
  | NaN, NaN => True
  | PosInf, PosInf => True
  | NegInf, NegInf => True
  | _, _ => False
  end.

(** [Number.MAX_SAFE_INTEGER], 2^53 - 1. *)
Definition MAX_SAFE_INTEGER : number := Fin 9007199254740991.

(** [isFinite(v)] *)
Definition isFinite (v : number) : bool :=
  match v with
  | Fin _ => true
  | _ => false
  end.

(** ToBoolean on a number: 0 and NaN are falsy. *)
Definition truthy (v : number) : bool :=
  match v with
  | Fin q => negb (Qeq_bool q 0)
  | NaN => false
  | PosInf | NegInf => true
  end.

(** [x || y] on numbers. *)
Definition or (x y : number) : number := if truthy x then x else y.

Definition Qlt_bool (a b : Q) : bool := negb (Qle_bool b a).

(** [x <= y]; false as soon as one side is NaN. *)
Definition leb (x y : number) : bool :=
  match x, y with
  | NaN, _ | _, NaN => false
  | Fin a, Fin b => Qle_bool a b
  | NegInf, _ => true
  | _, PosInf => true
  | _, _ => false
  end.

(** [x < y] *)
Definition ltb (x y : number) : bool :=
  match x, y with
  | NaN, _ | _, NaN => false
  | Fin a, Fin b => Qlt_bool a b
  | PosInf, _ => false
  | _, NegInf => false
  | _, _ => true
  end.

(** [x >= y] and [x > y] *)
Definition geb (x y : number) : bool := leb y x.
Definition gtb (x y : number) : bool := ltb y x.

(** ** Rounding to binary64 *)

(** The nearest integer to a rational, ties to the even one. *)
Definition round_half_even (x : Q) : Z :=
  let f := Qfloor x in
  match Qcompare (x - inject_Z f) (1 # 2) with
  | Lt => f
  | Gt => (f + 1)%Z
  | Eq => if Z.even f then f else (f + 1)%Z
  end.

(** For [a > 0], the integer [k] with [2^k <= a < 2^(k+1)]. *)
Definition magnitude (a : Q) : Z :=
  let k := (Z.log2 (Qnum a) - Z.log2 (Zpos (Qden a)))%Z in
  if Qle_bool (2 ^ k) a then k else (k - 1)%Z.

(** The exponent of the unit in the last place of [a]: 53 significant
    bits, and no exponent below -1074 (the subnormal numbers). *)
Definition exponent (a : Q) : Z := Z.max (-1074) (magnitude a - 52).

(** [a] rounded to a multiple of its unit in the last place. *)
Definition rounded_value (a : Q) : Q :=
  inject_Z (round_half_even (a / 2 ^ exponent a)) * 2 ^ exponent a.

(** The binary64 number nearest to [a > 0]; +Infinity from 2^1024 on. *)
Definition round_positive (a : Q) : number :=
  if Qle_bool (2 ^ 1024) (rounded_value a) then PosInf
  else Fin (Qred (rounded_value a)).

Definition negate (x : number) : number :=
  match x with
  | Fin v => Fin (- v)
  | NaN => NaN
  | PosInf => NegInf
  | NegInf => PosInf
  end.

(** The binary64 number nearest to a rational. *)
Definition round64 (q : Q) : number :=
  match Qnum q with
  | Z0 => Fin 0
  | Zpos _ => round_positive q
  | Zneg _ => negate (round_positive (- q))
  end.

(** A decimal literal of the source is the binary64 number nearest to
    it.  (An integer literal below 2^53 is that integer, written [Fin].) *)
Definition literal (q : Q) : number := round64 q.

(** ** Arithmetic *)

(** [x - y] *)
Definition sub (x y : number) : number :=
  match x, y with
  | NaN, _ | _, NaN => NaN
  | Fin a, Fin b => round64 (a - b)
  | PosInf, PosInf | NegInf, NegInf => NaN
  | PosInf, _ | _, NegInf => PosInf
  | NegInf, _ | _, PosInf => NegInf
  end.

(** Infinity carrying the sign of [q] times the sign [pos]. *)
Definition signed_inf (pos : bool) (q : Q) : number :=
  match q ?= 0 with
  | Eq => NaN
  | Gt => if pos then PosInf else NegInf
  | Lt => if pos then NegInf else PosInf
  end.

(** [x * y] *)
Definition mul (x y : number) : number :=
  match x, y with
  | NaN, _ | _, NaN => NaN
  | Fin a, Fin b => round64 (a * b)
  | PosInf, Fin b | Fin b, PosInf => signed_inf true b
  | NegInf, Fin b | Fin b, NegInf => signed_inf false b
  | PosInf, PosInf | NegInf, NegInf => PosInf
  | PosInf, NegInf | NegInf, PosInf => NegInf
  end.

(** [x / y]; a zero divisor is +0. *)
Definition div (x y : number) : number :=
  match x, y with
  | NaN, _ | _, NaN => NaN
  | Fin a, Fin b => if Qeq_bool b 0 then signed_inf true a else round64 (a / b)
  | Fin _, (PosInf | NegInf) => Fin 0
  | PosInf, Fin b => if Qle_bool 0 b then PosInf else NegInf
  | NegInf, Fin b => if Qle_bool 0 b then NegInf else PosInf
  | (PosInf | NegInf), (PosInf | NegInf) => NaN
  end.

(** [Math.min(x, y)] and [Math.max(x, y)]: NaN if either argument is. *)
Definition Math_min (x y : number) : number :=
  match x, y with
  | NaN, _ | _, NaN => NaN
  | _, _ => if leb x y then x else y
  end.

Definition Math_max (x y : number) : number :=
  match x, y with
  | NaN, _ | _, NaN => NaN
  | _, _ => if leb x y then y else x
  end.

(** The nearest integer to a rational, ties towards +Infinity. *)
Definition round_half_up (q : Q) : Z := Qfloor (q + (1 # 2)).

(** [Math.round(x)] *)
Definition Math_round (x : number) : number :=
  match x with
  | Fin q => Fin (inject_Z (round_half_up q))
  | _ => x
  end.

End JS.

Notation "x =~ y" := (JS.numeq x y) (at level 70, no associativity).
Infix "-" := JS.sub : js_scope.
Infix "*" := JS.mul : js_scope.
Infix "/" := JS.div : js_scope.
Infix "<=?" := JS.leb (at level 70, no associativity) : js_scope.
Infix "<?" := JS.ltb (at level 70, no associativity) : js_scope.
Infix ">=?" := JS.geb (at level 70, no associativity) : js_scope.
Infix ">?" := JS.gtb (at level 70, no associativity) : js_scope.
Infix "||" := JS.or : js_scope.

(* ================================================================== *)
(** * src/app/components/DoraQuickCheck.tsx *)
(* ================================================================== *)

Module DoraQuickCheck.
Import JS.

(** [clampNum(v, min = 0, max = Number.MAX_SAFE_INTEGER)] *)
Definition clampNum_ (v min max : number) : number :=
  if isFinite v then Math_min (Math_max v min) max else Fin 0.

Definition clampNum (v : number) : number :=
  clampNum_ v (Fin 0) MAX_SAFE_INTEGER.

(** [DORA_FREQ]: the thresholds (the labels are display text). *)
Record FreqBand := { minPerMonth : number }.

Module DORA_FREQ.
Definition elite  : FreqBand := {| minPerMonth := Fin 30 |}.
Definition high   : FreqBand := {| minPerMonth := Fin 4 |}.
Definition medium : FreqBand := {| minPerMonth := Fin 1 |}.
Definition low    : FreqBand := {| minPerMonth := Fin 0 |}.
End DORA_FREQ.

Inductive DoraTier : Type := elite | high | medium | low | na.

Definition freqTier (perMonth : number) : DoraTier :=
  if (perMonth >=? minPerMonth DORA_FREQ.elite)%js then elite
  else if (perMonth >=? minPerMonth DORA_FREQ.high)%js then high
  else if (perMonth >=? minPerMonth DORA_FREQ.medium)%js then medium
  else if (perMonth >? Fin 0)%js then low
  else na.

(** [number | null] is [option number].  The thresholds are compared as
    the decimals 0.15 and 0.3; a binary64 number is at most the decimal
    exactly when it is at most the binary64 number that the literal
    denotes ([TierFacts.cfrTier_binary64]). *)
Definition cfrTier (cfr : option number) : DoraTier :=
  match cfr with
  | None => na
  | Some cfr =>
      if (cfr <=? Fin 0.15)%js then elite
      else if (cfr <=? Fin 0.3)%js then medium
      else low
  end.

Definition leadTier (days : option number) : DoraTier :=
  match days with
  | None => na
  | Some days =>
      if (days <=? Fin 1)%js then elite
      else if (days <=? Fin 7)%js then high
      else if (days <=? Fin 30)%js then medium
      else low
  end.

Definition mttrTier (hours : option number) : DoraTier :=
  match hours with
  | None => na
  | Some hours =>
      if (hours <=? Fin 1)%js then elite
      else if (hours <=? Fin 24)%js then high
      else if (hours <=? Fin 24 * Fin 7)%js then medium
      else low
  end.

(** ** Component state: six fields of type [number | ""] *)

Inductive field : Type :=
| Blank                 (* the empty string *)
| Num (n : number).

Record State := {
  deploys : field;
  team : field;
  squads : field;
  errors : field;
  leadDays : field;
  mttrHours : field
}.

(** The [useState] initial values. *)
Definition initial : State := {|
  deploys := Num (Fin 12);
  team := Num (Fin 20);
  squads := Num (Fin 4);
  errors := Num (Fin 2);
  leadDays := Num (Fin 3);
  mttrHours := Num (Fin 8)
|}.

(** The six entries of [steps], in order. *)
Inductive Step : Type :=
| StepDeploys | StepTeam | StepSquads | StepErrors | StepLeadDays | StepMttrHours.

Section Steps.
(** The unary plus [+v] on a string (ToNumber), supplied by the host. *)
Variable ToNumber : string -> number.

(** [v === "" ? "" : clampNum(+v)] *)
Definition coerce (v : string) : field :=
  if String.eqb v EmptyString then Blank else Num (clampNum (ToNumber v)).

(** [steps[i].onChange(v)]: the setter of the field of step [i]. *)
Definition onChange (i : Step) (v : string) (st : State) : State :=
  match i with
  | StepDeploys =>
      {| deploys := coerce v; team := team st; squads := squads st;
         errors := errors st; leadDays := leadDays st; mttrHours := mttrHours st |}
  | StepTeam =>
      {| deploys := deploys st; team := coerce v; squads := squads st;
         errors := errors st; leadDays := leadDays st; mttrHours := mttrHours st |}
  | StepSquads =>
      {| deploys := deploys st; team := team st; squads := coerce v;
         errors := errors st; leadDays := leadDays st; mttrHours := mttrHours st |}
  | StepErrors =>
      {| deploys := deploys st; team := team st; squads := squads st;
         errors := coerce v; leadDays := leadDays st; mttrHours := mttrHours st |}
  | StepLeadDays =>
      {| deploys := deploys st; team := team st; squads := squads st;
         errors := errors st; leadDays := coerce v; mttrHours := mttrHours st |}
  | StepMttrHours =>
      {| deploys := deploys st; team := team st; squads := squads st;
         errors := errors st; leadDays := leadDays st; mttrHours := coerce v |}
  end.

(** The states the component can be in: the initial one, and any state
    after an input event. *)
Inductive reachable : State -> Prop :=
| reach_initial : reachable initial
| reach_change i v st : reachable st -> reachable (onChange i v st).
End Steps.

(** ** [validNumbers] *)

Record ValidNumbers := {
  d : number;
  t : number;
  s : number;
  e : number;
  ld : option number;
  mh : option number
}.

(** [typeof x === "number" ? x : dflt] *)
Definition number_or (x : field) (dflt : number) : number :=
  match x with
  | Num n => n
  | Blank => dflt
  end.

(** [typeof x === "number" ? x : null] *)
Definition number_or_null (x : field) : option number :=
  match x with
  | Num n => Some n
  | Blank => None
  end.

Definition validNumbers (st : State) : ValidNumbers :=
  let d := number_or (deploys st) (Fin 0) in
  let t := number_or (team st) (Fin 0) in
  let s := number_or (squads st) (Fin 1) in
  let e := number_or (errors st) (Fin 0) in
  let ld := number_or_null (leadDays st) in
  let mh := number_or_null (mttrHours st) in
  {| d := d; t := t; s := (s || Fin 1)%js; e := e; ld := ld; mh := mh |}.

(** ** [metrics] *)

Record Metrics := {
  perSquad : number;
  perEng : number;
  cfr : option number;
  freq : DoraTier;
  cfrT : DoraTier;
  freqPct : number;
  cfrPct : number;
  ltT : DoraTier;
  mttrT : DoraTier;
  ltPct : number;
  mttrPct : number
}.

(** The four "normalized bars" expressions of [metrics]. *)
Definition freqPct_of (d : number) : number :=
  Math_min (Fin 100) (Math_round ((d / Fin 30) * Fin 100))%js.

Definition cfrPct_of (cfr : option number) : number :=
  match cfr with
  | None => Fin 0
  | Some cfr => Math_max (Fin 0) (Math_round ((Fin 1 - cfr / literal 0.3) * Fin 100))%js
  end.

Definition ltPct_of (ld : option number) : number :=
  match ld with
  | None => Fin 0
  | Some ld =>
      Math_max (Fin 0)
        (Math_min (Fin 100) (Math_round ((Fin 1 - (ld - Fin 1) / Fin 29) * Fin 100))%js)
  end.

Definition mttrPct_of (mh : option number) : number :=
  match mh with
  | None => Fin 0
  | Some mh =>
      Math_max (Fin 0)
        (Math_min (Fin 100)
           (Math_round ((Fin 1 - (mh - Fin 1) / (Fin 168 - Fin 1)) * Fin 100))%js)
  end.

Definition metrics (validNumbers : ValidNumbers) : Metrics :=
  let '{| d := d; t := t; s := s; e := e; ld := ld; mh := mh |} := validNumbers in
  let perSquad := (d / s)%js in
  let perEng := if truthy t then (d / t)%js else Fin 0 in
  let cfr := if (d >? Fin 0)%js then Some (Math_min (Fin 1) (e / d)%js) else None in
  let freq := freqTier d in
  let cfrT := cfrTier cfr in
  let ltT := leadTier ld in
  let mttrT := mttrTier mh in
  let freqPct := freqPct_of d in
  let cfrPct := cfrPct_of cfr in
  let ltPct := ltPct_of ld in
  let mttrPct := mttrPct_of mh in
  {| perSquad := perSquad; perEng := perEng; cfr := cfr; freq := freq; cfrT := cfrT;
     freqPct := freqPct; cfrPct := cfrPct; ltT := ltT; mttrT := mttrT;
     ltPct := ltPct; mttrPct := mttrPct |}.

End DoraQuickCheck.

(* ================================================================== *)
(** * src/app/api/send-results/route.ts *)
(* ================================================================== *)

Module SendResults.
Import JS.
Local Open Scope string_scope.

(** ** Values and exceptions *)

(** The values a parsed JSON body is made of, and [undefined].  An
    object is the list of its own properties, one entry per key. *)
Inductive Value : Type :=
| VUndefined
| VNull
| VBool (b : bool)
| VNumber (n : number)
| VString (s : string)
| VArray (elems : list Value)
| VObject (props : list (string * Value)).

Inductive Exn : Type :=
| TypeError
| SyntaxError
| OtherError.

(** A computation that returns a value or throws. *)
Definition M (A : Type) : Type := (Exn + A)%type.

Definition ret {A} (a : A) : M A := inr a.
Definition throw {A} (x : Exn) : M A := inl x.
Definition bind {A B} (c : M A) (k : A -> M B) : M B :=
  match c with
  | inl x => inl x
  | inr a => k a
  end.

(** [try { body } catch (error) { handler }] *)
Definition try_catch {A} (body : M A) (handler : Exn -> M A) : M A :=
  match body with
  | inl error => handler error
  | inr a => inr a
  end.

Notation "x <- c ;; k" := (bind c (fun x => k))
  (at level 61, c at next level, right associativity).

(** ** Property access and conversions *)

Fixpoint lookup (k : string) (props : list (string * Value)) : Value :=
  match props with
  | [] => VUndefined
  | (k', v) :: rest => if String.eqb k k' then v else lookup k rest
  end.

Definition has_own (k : string) (props : list (string * Value)) : bool :=
  existsb (fun p => String.eqb k (fst p)) props.

(** [v.k], for the property names the handler reads (none of them is a
    property of a built-in prototype): a TypeError on [undefined] and
    [null], the own property of an object, [undefined] otherwise. *)
Definition get (v : Value) (k : string) : M Value :=
  match v with
  | VUndefined | VNull => throw TypeError
  | VObject props => ret (lookup k props)
  | _ => ret VUndefined
  end.

(** ToBoolean *)
Definition ToBoolean (v : Value) : bool :=
  match v with
  | VUndefined | VNull => false
  | VBool b => b
  | VNumber n => truthy n
  | VString s => negb (String.eqb s EmptyString)
  | VArray _ | VObject _ => true
  end.

(** [a || b] on values. *)
Definition or_else (a b : Value) : Value := if ToBoolean a then a else b.

Section Host.
(** Built-ins of the host: Number::toString, StringToNumber,
    [Number.prototype.toFixed], [String.prototype.toUpperCase] and the
    two readings of [new Date().toLocaleString()]. *)
Variable NumberToString : number -> string.
Variable StringToNumber : string -> number.
Variable toFixed : number -> nat -> string.
Variable toUpperCase : string -> string.
Variable now_text now_html : string.

(** ToString, as a template literal applies it.  An array is joined
    with commas; a plain object prints as [object Object] unless an own
    (hence non-callable) [toString] property shadows the inherited
    method, in which case the conversion throws. *)
Fixpoint ToString (v : Value) : M string :=
  match v with
  | VUndefined => ret "undefined"
  | VNull => ret "null"
  | VBool true => ret "true"
  | VBool false => ret "false"
  | VNumber n => ret (NumberToString n)
  | VString s => ret s
  | VArray elems =>
      (fix join (l : list Value) : M string :=
         match l with
         | [] => ret EmptyString
         | x :: rest =>
             a <- match x with
                  | VUndefined | VNull => ret EmptyString
                  | _ => ToString x
                  end ;;
             match rest with
             | [] => ret a
             | _ => b <- join rest ;; ret (a ++ "," ++ b)
             end
         end) elems
  | VObject props =>
      if has_own "toString" props then throw TypeError else ret "[object Object]"
  end.

(** ToNumber *)
Definition ToNumber (v : Value) : M number :=
  match v with
  | VUndefined => ret NaN
  | VNull => ret (Fin 0)
  | VBool true => ret (Fin 1)
  | VBool false => ret (Fin 0)
  | VNumber n => ret n
  | VString s => ret (StringToNumber s)
  | VArray _ | VObject _ => s <- ToString v ;; ret (StringToNumber s)
  end.

(** [v.toFixed(digits)]: only a number has the method. *)
Definition call_toFixed (v : Value) (digits : nat) : M string :=
  match v with
  | VNumber n => ret (toFixed n digits)
  | _ => throw TypeError
  end.

(** [v.toUpperCase()]: only a string has the method. *)
Definition call_toUpperCase (v : Value) : M string :=
  match v with
  | VString s => ret (toUpperCase s)
  | _ => throw TypeError
  end.

(** ** The interpolated expressions *)

(** [${obj.k}] *)
Definition show (obj : Value) (k : string) : M string :=
  v <- get obj k ;; ToString v.

(** [${obj.k.toFixed(digits)}] *)
Definition show_fixed (obj : Value) (k : string) (digits : nat) : M string :=
  v <- get obj k ;; call_toFixed v digits.

(** [${obj.k.toUpperCase()}] *)
Definition show_upper (obj : Value) (k : string) : M string :=
  v <- get obj k ;; call_toUpperCase v.

(** [${metrics.cfr ? Math.round(metrics.cfr * 100) + '%' : 'N/A'}] *)
Definition show_cfr (metrics : Value) : M string :=
  c <- get metrics "cfr" ;;
  if ToBoolean c then
    c' <- get metrics "cfr" ;;
    n <- ToNumber c' ;;
    ret (NumberToString (Math_round (n * Fin 100)%js) ++ "%")
  else ret "N/A".

(** [${results.k || 'N/A'}] *)
Definition show_or_NA (results : Value) (k : string) : M string :=
  v <- get results k ;; ToString (or_else v (VString "N/A")).


(** ** The two renderings *)

Definition nl : string := String (Ascii.ascii_of_nat 10) EmptyString.
Definition dq : string := String (Ascii.ascii_of_nat 34) EmptyString.

(** Each line followed by a line break. *)
Definition unlines (ls : list string) : string :=
  fold_right (fun l acc => l ++ nl ++ acc) EmptyString ls.

Definition recommendations : list string :=
  [ "Adopt smaller batch sizes and trunk-based development to safely increase deployment cadence";
    "Automate progressive delivery (feature flags, canary, blue-green) to reduce blast radius";
    "Invest in test reliability (contract tests, e2e smoke) to drive CFR down toward ≤15%";
    "Map your value stream to reduce lead time; enforce WIP limits; parallelize reviews";
    "Lower MTTR with fast rollback, runbooks, on-call drills, and automated health checks" ].

(** The interpolated strings of a report, in the order of the text
    template. *)
Record Cells := {
  c_email : string;
  c_generated : string;
  c_freqT : string;
  c_deploys : string;
  c_perSquad : string;
  c_perEng : string;
  c_cfrT : string;
  c_errors : string;
  c_cfr : string;
  c_ltT : string;
  c_leadDays : string;
  c_mttrT : string;
  c_mttrHours : string;
  c_team : string;
  c_squads : string
}.

(** The upper-cased tier names, interpolated in the HTML template only. *)
Record Upper := {
  u_freqT : string;
  u_cfrT : string;
  u_ltT : string;
  u_mttrT : string
}.

(** The static text of [resultsText] around its interpolations. *)
Definition text_template (c : Cells) : string :=
  nl ++ unlines (List.concat [
    [ "DORA Metrics Report";
      "==================";
      EmptyString;
      "Email: " ++ c_email c;
      "Generated: " ++ c_generated c;
      EmptyString;
      "DEPLOYMENT FREQUENCY";
      "Current Tier: " ++ c_freqT c;
      "Deployments/month: " ++ c_deploys c;
      "Per squad/month: " ++ c_perSquad c;
      "Per engineer/month: " ++ c_perEng c;
      EmptyString;
      "CHANGE FAILURE RATE";
      "Current Tier: " ++ c_cfrT c;
      "Production errors/month: " ++ c_errors c;
      "CFR: " ++ c_cfr c;
      EmptyString;
      "LEAD TIME FOR CHANGES";
      "Current Tier: " ++ c_ltT c;
      "Lead time (days): " ++ c_leadDays c;
      EmptyString;
      "MEAN TIME TO RESTORE (MTTR)";
      "Current Tier: " ++ c_mttrT c;
      "MTTR (hours): " ++ c_mttrHours c;
      EmptyString;
      "TEAM INFORMATION";
      "Team size: " ++ c_team c;
      "Number of squads: " ++ c_squads c;
      EmptyString;
      "RECOMMENDATIONS" ];
    map (fun r => "- " ++ r) recommendations ]).

Definition html_style : list string :=
  [ "    <style>";
    "        body { font-family: Arial, sans-serif; line-height: 1.6; color: #333; max-width: 800px; margin: 0 auto; padding: 20px; }";
    "        .header { background: #f8f9fa; padding: 20px; border-radius: 8px; margin-bottom: 20px; }";
    "        .metric { background: #fff; border: 1px solid #e9ecef; border-radius: 8px; padding: 20px; margin-bottom: 20px; }";
    "        .metric h3 { margin: 0 0 10px 0; color: #495057; }";
    "        .tier { display: inline-block; padding: 4px 8px; border-radius: 4px; font-size: 12px; font-weight: bold; }";
    "        .tier-elite { background: #d4edda; color: #155724; }";
    "        .tier-high { background: #cce7ff; color: #004085; }";
    "        .tier-medium { background: #fff3cd; color: #856404; }";
    "        .tier-low { background: #f8d7da; color: #721c24; }";
    "        .recommendations { background: #e2e3e5; padding: 20px; border-radius: 8px; margin-top: 20px; }";
    "        .recommendations h3 { margin-top: 0; }";
    "        .recommendations ul { margin: 10px 0; }";
    "    </style>" ].

Definition div_open (class : string) : string :=
  "    <div class=" ++ dq ++ class ++ dq ++ ">".

Definition tier_span (tier upper : string) : string :=
  "        <span class=" ++ dq ++ "tier tier-" ++ tier ++ dq ++ ">" ++ upper ++ "</span>".

Definition labelled (indent label value : string) : string :=
  indent ++ "<p>" ++ label ++ " <strong>" ++ value ++ "</strong></p>".

Definition labelled_header (label value : string) : string :=
  "        <p><strong>" ++ label ++ "</strong> " ++ value ++ "</p>".

Definition ind8 : string := "        ".

(** The static text of [resultsHtml] around its interpolations. *)
Definition html_template (c : Cells) (u : Upper) : string :=
  nl ++ unlines (List.concat [
    [ "<!DOCTYPE html>";
      "<html>";
      "<head>";
      "    <meta charset=" ++ dq ++ "utf-8" ++ dq ++ ">";
      "    <title>DORA Metrics Report</title>" ];
    html_style;
    [ "</head>";
      "<body>";
      div_open "header";
      "        <h1>DORA Metrics Report</h1>";
      labelled_header "Email:" (c_email c);
      labelled_header "Generated:" (c_generated c);
      "    </div>";
      EmptyString;
      div_open "metric";
      "        <h3>Deployment Frequency</h3>";
      tier_span (c_freqT c) (u_freqT u);
      labelled ind8 "Deployments/month:" (c_deploys c);
      labelled ind8 "Per squad/month:" (c_perSquad c);
      labelled ind8 "Per engineer/month:" (c_perEng c);
      "    </div>";
      EmptyString;
      div_open "metric";
      "        <h3>Change Failure Rate</h3>";
      tier_span (c_cfrT c) (u_cfrT u);
      labelled ind8 "Production errors/month:" (c_errors c);
      labelled ind8 "CFR:" (c_cfr c);
      "    </div>";
      EmptyString;
      div_open "metric";
      "        <h3>Lead Time for Changes</h3>";
      tier_span (c_ltT c) (u_ltT u);
      labelled ind8 "Lead time (days):" (c_leadDays c);
      "    </div>";
      EmptyString;
      div_open "metric";
      "        <h3>Mean Time to Restore (MTTR)</h3>";
      tier_span (c_mttrT c) (u_mttrT u);
      labelled ind8 "MTTR (hours):" (c_mttrHours c);
      "    </div>";
      EmptyString;
      div_open "metric";
      "        <h3>Team Information</h3>";
      labelled ind8 "Team size:" (c_team c);
      labelled ind8 "Number of squads:" (c_squads c);
      "    </div>";
      EmptyString;
      div_open "recommendations";
      "        <h3>Recommendations</h3>";
      "        <ul>" ];
    map (fun r => "            <li>" ++ r ++ "</li>") recommendations;
    [ "        </ul>";
      "    </div>";
      "</body>";
      "</html>" ] ]).

(** ** The handler *)

Definition resultsText (email results metrics : Value) : M string :=
  email' <- ToString email ;;
  freqT <- show metrics "freqT" ;;
  deploys <- show results "deploys" ;;
  perSquad <- show_fixed metrics "perSquad" 1 ;;
  perEng <- show_fixed metrics "perEng" 2 ;;
  cfrT <- show metrics "cfrT" ;;
  errors <- show results "errors" ;;
  cfr <- show_cfr metrics ;;
  ltT <- show metrics "ltT" ;;
  leadDays <- show_or_NA results "leadDays" ;;
  mttrT <- show metrics "mttrT" ;;
  mttrHours <- show_or_NA results "mttrHours" ;;
  team <- show results "team" ;;
  squads <- show results "squads" ;;
  ret (text_template
         {| c_email := email'; c_generated := now_text; c_freqT := freqT;
            c_deploys := deploys; c_perSquad := perSquad; c_perEng := perEng;
            c_cfrT := cfrT; c_errors := errors; c_cfr := cfr; c_ltT := ltT;
            c_leadDays := leadDays; c_mttrT := mttrT; c_mttrHours := mttrHours;
            c_team := team; c_squads := squads |}).

Definition resultsHtml (email results metrics : Value) : M string :=
  email' <- ToString email ;;
  freqT <- show metrics "freqT" ;;
  freqT_upper <- show_upper metrics "freqT" ;;
  deploys <- show results "deploys" ;;
  perSquad <- show_fixed metrics "perSquad" 1 ;;
  perEng <- show_fixed metrics "perEng" 2 ;;
  cfrT <- show metrics "cfrT" ;;
  cfrT_upper <- show_upper metrics "cfrT" ;;
  errors <- show results "errors" ;;
  cfr <- show_cfr metrics ;;
  ltT <- show metrics "ltT" ;;
  ltT_upper <- show_upper metrics "ltT" ;;
  leadDays <- show_or_NA results "leadDays" ;;
  mttrT <- show metrics "mttrT" ;;
  mttrT_upper <- show_upper metrics "mttrT" ;;
  mttrHours <- show_or_NA results "mttrHours" ;;
  team <- show results "team" ;;
  squads <- show results "squads" ;;
  ret (html_template
         {| c_email := email'; c_generated := now_html; c_freqT := freqT;
            c_deploys := deploys; c_perSquad := perSquad; c_perEng := perEng;
            c_cfrT := cfrT; c_errors := errors; c_cfr := cfr; c_ltT := ltT;
            c_leadDays := leadDays; c_mttrT := mttrT; c_mttrHours := mttrHours;
            c_team := team; c_squads := squads |}
         {| u_freqT := freqT_upper; u_cfrT := cfrT_upper; u_ltT := ltT_upper;
            u_mttrT := mttrT_upper |}).

Record EmailData := {
  to : string;
  cc : string;
  from : string;
  subject : string;
  text : string;
  html : string
}.

(** [request.json()] resolves to the parsed body or rejects. *)
Record NextRequest := { json : M Value }.

Record Response := { status : nat; body : Value }.

(** [NextResponse.json(body, { status })]; the status defaults to 200. *)
Definition NextResponse_json (body : Value) (status : nat) : Response :=
  {| status := status; body := body |}.

(** What the handler writes to the console. *)
Inductive LogEntry : Type :=
| console_log (emailData : EmailData)
| console_error (error : Exn).

Record Outcome := { response : Response; console : list LogEntry }.

(** The body of the [try] block. *)
Definition try_block (request : NextRequest) : M Outcome :=
  b <- json request ;;
  email <- get b "email" ;;
  results <- get b "results" ;;
  metrics <- get b "metrics" ;;
  resultsText <- resultsText email results metrics ;;
  resultsHtml <- resultsHtml email results metrics ;;
  email' <- ToString email ;;
  let emailData :=
    {| to := "swanand@superlinearinsights.com";
       cc := "vamsi@superlinearinsights.com";
       from := "noreply@dora-check.com";
       subject := "DORA Metrics Report - " ++ email';
       text := resultsText;
       html := resultsHtml |} in
  ret {| response :=
           NextResponse_json
             (VObject [("success", VBool true);
                       ("message", VString "Results captured and email queued")])
             200;
         console := [console_log emailData] |}.

(** The [catch] block. *)
Definition catch_block (error : Exn) : M Outcome :=
  ret {| response :=
           NextResponse_json (VObject [("error", VString "Failed to send email")]) 500;
         console := [console_error error] |}.

Definition POST (request : NextRequest) : M Outcome :=
  try_catch (try_block request) catch_block.

End Host.

End SendResults.

(* ================================================================== *)
(** * Vocabulary of the specification *)
(* ================================================================== *)

Module Spec.
Import JS DoraQuickCheck.

(** A field as [coerce] leaves it: blank, or a finite number that is at
    least 0. *)
Definition coerced_field (f : field) : Prop :=
  match f with
  | Blank => True
  | Num (Fin q) => 0 <= q
  | Num _ => False
  end.

(** A coerced input set. *)
Definition coerced (st : State) : Prop :=
  coerced_field (deploys st) /\ coerced_field (team st) /\
  coerced_field (squads st) /\ coerced_field (errors st) /\
  coerced_field (leadDays st) /\ coerced_field (mttrHours st).

(** An integer in [0, 100]. *)
Definition is_percent (p : number) : Prop :=
  exists k : Z, p = Fin (inject_Z k) /\ (0 <= k <= 100)%Z.

(** A finite number in [0, 1]. *)
Definition is_ratio (p : number) : Prop :=
  exists q : Q, p = Fin q /\ 0 <= q <= 1.

(** A finite number that is at least 0, and one that is above 0. *)
Definition nonneg (p : number) : Prop := exists q : Q, p = Fin q /\ 0 <= q.
Definition positive (p : number) : Prop := exists q : Q, p = Fin q /\ 0 < q.

Definition opt_nonneg (p : option number) : Prop :=
  match p with
  | None => True
  | Some n => nonneg n
  end.

(** A number that is at least 0: finite or +Infinity, and not NaN. *)
Definition not_negative (p : number) : Prop := (Fin 0 <=? p)%js = true.

(** The linear normalisations in the words of the specification,
    evaluated in the arithmetic of the code:
    frequency [value/30*100];
    change failure rate [(1 - cfr/0.30)*100];
    lead time [(1 - (days-1)/29)*100];
    MTTR [(1 - (hours-1)/167)*100]. *)
Definition linear_frequency (value : number) : number :=
  (value / Fin 30 * Fin 100)%js.
Definition linear_cfr (cfr : number) : number :=
  ((Fin 1 - cfr / literal 0.30) * Fin 100)%js.
Definition linear_leadTime (days : number) : number :=
  ((Fin 1 - (days - Fin 1) / Fin 29) * Fin 100)%js.
Definition linear_mttr (hours : number) : number :=
  ((Fin 1 - (hours - Fin 1) / Fin 167) * Fin 100)%js.

(** The same, capped at 100 (frequency), floored at 0 (change failure
    rate) or clamped to [0, 100] (lead time, MTTR), before they are
    rounded to an integer. *)
Definition spec_frequency (value : number) : number :=
  Math_min (Fin 100) (linear_frequency value).
Definition spec_cfr (cfr : number) : number :=
  Math_max (Fin 0) (linear_cfr cfr).
Definition spec_leadTime (days : number) : number :=
  Math_max (Fin 0) (Math_min (Fin 100) (linear_leadTime days)).
Definition spec_mttr (hours : number) : number :=
  Math_max (Fin 0) (Math_min (Fin 100) (linear_mttr hours)).

(** The progress percentage of a value that may be null. *)
Definition percent_of (spec : number -> number) (value : option number) : number :=
  match value with
  | None => Fin 0
  | Some x => Math_round (spec x)
  end.

(** The result of a property read is the number 0. *)
Definition is_zero (v : SendResults.M SendResults.Value) : Prop :=
  exists n, v = inr (SendResults.VNumber n) /\ n =~ Fin 0.

(** A request body of a team with no failures, a lead time of 0 days
    and an MTTR of 0 hours, and a body whose metrics are empty. *)
Definition example_results : SendResults.Value :=
  SendResults.VObject
    [ ("deploys"%string, SendResults.VNumber (Fin 12));
      ("team"%string, SendResults.VNumber (Fin 20));
      ("squads"%string, SendResults.VNumber (Fin 4));
      ("errors"%string, SendResults.VNumber (Fin 0));
      ("leadDays"%string, SendResults.VNumber (Fin 0));
      ("mttrHours"%string, SendResults.VNumber (Fin 0)) ].

Definition example_metrics : SendResults.Value :=
  SendResults.VObject
    [ ("perSquad"%string, SendResults.VNumber (Fin 3));
      ("perEng"%string, SendResults.VNumber (literal 0.6));
      ("cfr"%string, SendResults.VNumber (Fin 0));
      ("freqT"%string, SendResults.VString "high");
      ("cfrT"%string, SendResults.VString "elite");
      ("ltT"%string, SendResults.VString "elite");
      ("mttrT"%string, SendResults.VString "elite") ].

Definition example_email : SendResults.Value := SendResults.VString "team@example.org".

Definition example_request : SendResults.NextRequest :=
  {| SendResults.json :=
       inr (SendResults.VObject
              [ ("email"%string, example_email);
                ("results"%string, example_results);
                ("metrics"%string, example_metrics) ]) |}.

Definition malformed_request : SendResults.NextRequest :=
  {| SendResults.json :=
       inr (SendResults.VObject
              [ ("email"%string, example_email);
                ("results"%string, example_results);
                ("metrics"%string, SendResults.VObject []) ]) |}.

(** A stand-in for the host: numbers print as a fixed text, strings that
    are converted to a number give NaN, and upper-casing is the identity. *)
Definition example_POST : SendResults.NextRequest -> SendResults.M SendResults.Outcome :=
  SendResults.POST (fun _ => "0"%string) (fun _ => NaN) (fun _ _ => "0"%string)
    (fun s => s) "now"%string "now"%string.

Definition example_resultsText : SendResults.M string :=
  SendResults.resultsText (fun _ => "0"%string) (fun _ => NaN) (fun _ _ => "0"%string)
    "now"%string example_email example_results example_metrics.

Definition example_resultsHtml : SendResults.M string :=
  SendResults.resultsHtml (fun _ => "0"%string) (fun _ => NaN) (fun _ _ => "0"%string)
    (fun s => s) "now"%string example_email example_results example_metrics.

(** [needle] occurs in [text]. *)
Definition occurs_in (needle text : string) : Prop :=
  exists before after : string, text = (before ++ needle ++ after)%string.

(** [line] is one of the lines of [text]: it stands between two line
    breaks. *)
Definition line_of (line text : string) : Prop :=
  occurs_in (SendResults.nl ++ line ++ SendResults.nl)%string text.

(** The report a computation returns, the empty text if it throws. *)
Definition report_of (r : SendResults.M string) : string :=
  match r with
  | inr report => report
  | inl _ => EmptyString
  end.

(** The divisor of [perSquad] in the words of the specification:
    [max(squadCount, 1)]. *)
Definition spec_divisor (squadCount : number) : number :=
  Math_max squadCount (Fin 1).

End Spec.

(* ================================================================== *)
(** * src/app/components/DoraQuickCheck.tsx: advisory text and wizard *)
(* ================================================================== *)

Module DoraQuickCheckUI.
Import JS DoraQuickCheck.
Local Open Scope string_scope.

(** ** [tierGapText] *)

(** The [metric] argument: "freq" | "cfr" | "lead" | "mttr". *)
Inductive MetricKind : Type := freq_metric | cfr_metric | lead_metric | mttr_metric.

Definition is_freq (m : MetricKind) : bool :=
  match m with freq_metric => true | _ => false end.
Definition is_cfr (m : MetricKind) : bool :=
  match m with cfr_metric => true | _ => false end.
Definition is_lead (m : MetricKind) : bool :=
  match m with lead_metric => true | _ => false end.
Definition is_mttr (m : MetricKind) : bool :=
  match m with mttr_metric => true | _ => false end.

(** A guarded block that may [return]: the text it returns, or the rest
    of the function when it falls through. *)
Definition or_continue (block : option string) (rest : string) : string :=
  match block with
  | Some text => text
  | None => rest
  end.

Section GapText.
(** Number::toString, as a template literal applies it. *)
Variable NumberToString : number -> string.

(** The optional arguments are [option number]: [None] stands for both
    [undefined] and [null], which the tests [typeof x === "number"] and
    [x != null] do not tell apart. *)
Definition tierGapText (t : DoraTier) (metric : MetricKind)
    (perMonth cfr leadDays mttrHours : option number) : string :=
  match t with
  | elite => "You’re at leader level – keep it up!"
  | _ =>
  or_continue
    (match is_freq metric, perMonth with
     | true, Some perMonth =>
         let needed := Math_max (Fin 0) (Fin 30 - perMonth)%js in
         match t with
         | high =>
             Some ("~" ++ NumberToString needed ++ " more deploys/mo to reach Elite (≥30/mo).")
         | medium =>
             Some ("Increase cadence by ~"
                   ++ NumberToString (Math_max (Fin 0) (Fin 4 - perMonth)%js)
                   ++ "+/mo to reach High, ~" ++ NumberToString needed
                   ++ " to reach Elite.")
         | low => Some "Raise to ≥1/mo for Medium; aim for 30/mo to match Elite."
         | _ => None
         end
     | _, _ => None
     end)
  (or_continue
    (match is_cfr metric, cfr with
     | true, Some cfr =>
         let pct := Math_round (cfr * Fin 100)%js in
         match t with
         | medium =>
             Some ("Reduce change failures to ≤15% (now ~" ++ NumberToString pct ++ "%).")
         | low =>
             Some ("High failure rate (~" ++ NumberToString pct
                   ++ "%). Target ≤15% for Elite/High.")
         | _ => None
         end
     | _, _ => None
     end)
  (or_continue
    (match is_lead metric, leadDays with
     | true, Some leadDays =>
         match t with
         | high =>
             Some ("Trim lead time to ≤1 day (now ~" ++ NumberToString leadDays
                   ++ "d) via smaller batches & faster reviews.")
         | medium =>
             Some ("Bring lead time under 1 week (now ~" ++ NumberToString leadDays
                   ++ "d) with CI/CD & WIP limits.")
         | low =>
             Some ("Lead time is long (~" ++ NumberToString leadDays
                   ++ "d). Aim ≤30d for Medium and ≤1d for Elite.")
         | _ => None
         end
     | _, _ => None
     end)
  (or_continue
    (match is_mttr metric, mttrHours with
     | true, Some mttrHours =>
         match t with
         | high =>
             Some ("Reduce MTTR to ≤1 hour (now ~" ++ NumberToString mttrHours
                   ++ "h) via fast rollback & auto-remediation.")
         | medium =>
             Some ("Bring MTTR under 24h (now ~" ++ NumberToString mttrHours
                   ++ "h) with better alerting & runbooks.")
         | low =>
             Some ("MTTR is high (~" ++ NumberToString mttrHours
                   ++ "h). Target ≤168h (1 week) then ≤1h for Elite.")
         | _ => None
         end
     | _, _ => None
     end)
    EmptyString)))
  end.

(** The four advisory texts the results card shows. *)
Definition freq_advice (validNumbers : ValidNumbers) (metrics : Metrics) : string :=
  tierGapText (freq metrics) freq_metric (Some (d validNumbers)) None None None.

Definition cfr_advice (metrics : Metrics) : string :=
  tierGapText (cfrT metrics) cfr_metric None (cfr metrics) None None.

Definition lead_advice (validNumbers : ValidNumbers) (metrics : Metrics) : string :=
  tierGapText (ltT metrics) lead_metric None None (ld validNumbers) None.

Definition mttr_advice (validNumbers : ValidNumbers) (metrics : Metrics) : string :=
  tierGapText (mttrT metrics) mttr_metric None None None (mh validNumbers).

End GapText.

(** ** The wizard *)

(** The [steps] array, by the field each entry edits. *)
Definition steps : list Step :=
  [StepDeploys; StepTeam; StepSquads; StepErrors; StepLeadDays; StepMttrHours].

(** [steps.length] *)
Definition steps_length : Z := Z.of_nat (length steps).

(** [steps[step]]; [None] is [undefined]. *)
Definition steps_at (step : Z) : option Step :=
  if (step <? 0)%Z then None else nth_error steps (Z.to_nat step).

(** [const atLast = step >= steps.length] *)
Definition atLast (step : Z) : bool := (steps_length <=? step)%Z.

(** The buttons: Back and Next inside the card, Back and Next below the
    card, and Edit answers on the results card. *)
Inductive Button : Type :=
| CardBack | CardNext | FloatingBack | FloatingNext | EditAnswers.

(** Whether a button is on screen and enabled: the card and the floating
    controls are rendered when [!atLast], the results card otherwise, and
    both Back buttons are disabled when [step === 0]. *)
Definition enabled (b : Button) (step : Z) : bool :=
  match b with
  | CardBack | FloatingBack => negb (atLast step) && negb (step =? 0)%Z
  | CardNext | FloatingNext => negb (atLast step)
  | EditAnswers => atLast step
  end.

(** The [onClick] handlers, as updates of [step]. *)
Definition onClick (b : Button) (step : Z) : Z :=
  match b with
  | CardBack | FloatingBack => Z.max 0 (step - 1)
  | CardNext => (step + 1)%Z
  | FloatingNext => Z.min steps_length (step + 1)
  | EditAnswers => 0%Z
  end.

(** The component: the wizard position and the six inputs. *)
Record Component := { step : Z; inputs : State }.

(** [useState(0)] and the initial inputs. *)
Definition mount : Component := {| step := 0%Z; inputs := initial |}.

Inductive Event : Type :=
| Click (b : Button)
| Change (v : string).     (* the input's onChange, with [e.target.value] *)

Section Events.
Variable ToNumber : string -> number.

(** One event; [None] when the control is not on screen, or when the
    input's handler would read [steps[step]] past the array. *)
Definition dispatch (ev : Event) (c : Component) : option Component :=
  match ev with
  | Click b =>
      if enabled b (step c)
      then Some {| step := onClick b (step c); inputs := inputs c |}
      else None
  | Change v =>
      if atLast (step c) then None
      else match steps_at (step c) with
           | Some i => Some {| step := step c; inputs := onChange ToNumber i v (inputs c) |}
           | None => None
           end
  end.

(** The component after a sequence of events. *)
Inductive run : Component -> Prop :=
| run_mount : run mount
| run_event ev c c' : run c -> dispatch ev c = Some c' -> run c'.

End Events.

End DoraQuickCheckUI.

(* ================================================================== *)
(** * Vocabulary of the further properties *)
(* ================================================================== *)

Module Vocabulary.
Import JS DoraQuickCheck SendResults.

(** How good a tier is: n/a below low below medium below high below
    elite. *)
Definition rank (t : DoraTier) : nat :=
  match t with
  | na => 0
  | low => 1
  | medium => 2
  | high => 3
  | elite => 4
  end.

(** A field holding a finite number between 0 and
    [Number.MAX_SAFE_INTEGER], or blank. *)
Definition bounded_field (f : field) : Prop :=
  match f with
  | Blank => True
  | Num (Fin q) => 0 <= q <= 9007199254740991
  | Num _ => False
  end.

Definition bounded (st : State) : Prop :=
  bounded_field (deploys st) /\ bounded_field (team st) /\
  bounded_field (squads st) /\ bounded_field (errors st) /\
  bounded_field (leadDays st) /\ bounded_field (mttrHours st).

(** A value that is neither an array nor an object. *)
Definition primitive (v : Value) : Prop :=
  match v with
  | VArray _ | VObject _ => False
  | _ => True
  end.

(** The property [k] of [obj] can be read and is a primitive, a number,
    a string. *)
Definition primitive_at (obj : Value) (k : string) : Prop :=
  exists v, get obj k = inr v /\ primitive v.

Definition number_at (obj : Value) (k : string) : Prop :=
  exists n, get obj k = inr (VNumber n).

Definition string_at (obj : Value) (k : string) : Prop :=
  exists s, get obj k = inr (VString s).

(** The cells of a report with another time stamp. *)
Definition with_generated (generated : string) (c : Cells) : Cells :=
  {| c_email := c_email c; c_generated := generated; c_freqT := c_freqT c;
     c_deploys := c_deploys c; c_perSquad := c_perSquad c; c_perEng := c_perEng c;
     c_cfrT := c_cfrT c; c_errors := c_errors c; c_cfr := c_cfr c; c_ltT := c_ltT c;
     c_leadDays := c_leadDays c; c_mttrT := c_mttrT c;
     c_mttrHours := c_mttrHours c; c_team := c_team c; c_squads := c_squads c |}.

End Vocabulary.

(* ================================================================== *)
(** * Facts about the number model *)
(* ================================================================== *)

Module JSFacts.
Import JS.

Lemma numeq_refl (x : number) : x =~ x.
Proof. destruct x; simpl; auto with qarith. Qed.

Lemma numeq_sym (x y : number) : x =~ y -> y =~ x.
Proof. destruct x, y; simpl; auto with qarith. Qed.

Lemma numeq_trans (x y z : number) : x =~ y -> y =~ z -> x =~ z.
Proof.
  destruct x, y, z; simpl; try tauto.
  intros H1 H2. now rewrite H1.
Qed.

Lemma Qle_bool_false (a b : Q) : Qle_bool a b = false <-> (b < a)%Q.
Proof.
  split; intro H.
  - apply Qnot_le_lt. intro Hle. apply Qle_bool_iff in Hle. congruence.
  - destruct (Qle_bool a b) eqn:E; [|reflexivity].
    apply Qle_bool_iff in E. exfalso. exact (Qlt_not_le _ _ H E).
Qed.

Lemma Qlt_bool_iff (a b : Q) : Qlt_bool a b = true <-> (a < b)%Q.
Proof.
  unfold Qlt_bool. rewrite negb_true_iff. apply Qle_bool_false.
Qed.

Lemma Qlt_bool_false (a b : Q) : Qlt_bool a b = false <-> (b <= a)%Q.
Proof.
  unfold Qlt_bool. rewrite negb_false_iff. apply Qle_bool_iff.
Qed.

Lemma Qeq_bool_false (a b : Q) : Qeq_bool a b = false <-> ~ (a == b)%Q.
Proof.
  split.
  - apply Qeq_bool_neq.
  - intro H. destruct (Qeq_bool a b) eqn:E; [|reflexivity].
    apply Qeq_bool_iff in E. contradiction.
Qed.

End JSFacts.

(** Turns every boolean comparison of rationals in the goal and the
    context into the proposition it decides. *)
Ltac qprop :=
  repeat match goal with
  | H : Qle_bool _ _ = true |- _ => apply Qle_bool_iff in H
  | H : Qle_bool _ _ = false |- _ => apply JSFacts.Qle_bool_false in H
  | H : JS.Qlt_bool _ _ = true |- _ => apply JSFacts.Qlt_bool_iff in H
  | H : JS.Qlt_bool _ _ = false |- _ => apply JSFacts.Qlt_bool_false in H
  | H : Qeq_bool _ _ = true |- _ => apply Qeq_bool_iff in H
  | H : Qeq_bool _ _ = false |- _ => apply JSFacts.Qeq_bool_false in H
  | |- Qle_bool _ _ = true => apply Qle_bool_iff
  | |- Qle_bool _ _ = false => apply JSFacts.Qle_bool_false
  | |- JS.Qlt_bool _ _ = true => apply JSFacts.Qlt_bool_iff
  | |- JS.Qlt_bool _ _ = false => apply JSFacts.Qlt_bool_false
  | |- Qeq_bool _ _ = true => apply Qeq_bool_iff
  | |- Qeq_bool _ _ = false => apply JSFacts.Qeq_bool_false
  end.

(** Linear arithmetic over the rationals, after every division by a
    constant is turned into a multiplication. *)
Ltac qlra :=
  unfold Qdiv in *;
  repeat match goal with
  | |- context [Qinv ?c] =>
      let v := eval vm_compute in (Qinv c) in
      match v with Qmake _ _ => change (Qinv c) with v end
  | H : context [Qinv ?c] |- _ =>
      let v := eval vm_compute in (Qinv c) in
      match v with Qmake _ _ => change (Qinv c) with v in H end
  end;
  lra.

(** Splits on the comparisons of rationals an [if] in the goal tests. *)
Ltac qcases :=
  repeat match goal with
  | |- context [if Qle_bool ?a ?b then _ else _] =>
      let E := fresh "E" in destruct (Qle_bool a b) eqn:E
  | |- context [if JS.Qlt_bool ?a ?b then _ else _] =>
      let E := fresh "E" in destruct (JS.Qlt_bool a b) eqn:E
  | |- context [if Qeq_bool ?a ?b then _ else _] =>
      let E := fresh "E" in destruct (Qeq_bool a b) eqn:E
  end.

(* ================================================================== *)
(** * Rounding to binary64 *)
(* ================================================================== *)

Module Binary64.
Import JS.

(** ** Rounding to the nearest integer, ties to even *)

Lemma rhe_bounds (x : Q) :
  (Qfloor x <= round_half_even x <= Qfloor x + 1)%Z.
Proof.
  unfold round_half_even.
  destruct (Qcompare (x - inject_Z (Qfloor x)) (1 # 2)); try lia.
  destruct (Z.even (Qfloor x)); lia.
Qed.

Lemma rhe_mono (x y : Q) : x <= y -> (round_half_even x <= round_half_even y)%Z.
Proof.
  intro H. pose proof (Qfloor_resp_le x y H) as Hf.
  pose proof (rhe_bounds x) as Hx. pose proof (rhe_bounds y) as Hy.
  destruct (Z.eq_dec (Qfloor x) (Qfloor y)) as [E | NE]; [|lia].
  unfold round_half_even in *. rewrite <- E in *.
  destruct (Qcompare_spec (x - inject_Z (Qfloor x)) (1 # 2)) as [Cx | Cx | Cx];
    destruct (Qcompare_spec (y - inject_Z (Qfloor x)) (1 # 2)) as [Cy | Cy | Cy];
    try (destruct (Z.even (Qfloor x))); try lia; exfalso; lra.
Qed.

Lemma rhe_inject_Z (k : Z) : round_half_even (inject_Z k) = k.
Proof.
  unfold round_half_even. rewrite Qfloor_Z.
  destruct (Qcompare_spec (inject_Z k - inject_Z k) (1 # 2)) as [C | C | C];
    [exfalso; lra | reflexivity | exfalso; lra].
Qed.

(** ** Powers of two *)

Lemma pow2_pos (z : Z) : 0 < 2 ^ z.
Proof. apply Qpower_0_lt. reflexivity. Qed.

Lemma pow2_add (x y : Z) : 2 ^ (x + y) == 2 ^ x * 2 ^ y.
Proof. apply Qpower_plus. discriminate. Qed.

Lemma pow2_le (x y : Z) : (x <= y)%Z -> 2 ^ x <= 2 ^ y.
Proof. intro H. apply Qpower_le_compat_l; [assumption | discriminate]. Qed.

Lemma pow2_inject (n : Z) : (0 <= n)%Z -> inject_Z (2 ^ n) == 2 ^ n.
Proof. intro H. now rewrite Zpower_Qpower. Qed.

(** ** Magnitude and exponent *)

Lemma magnitude_spec (a : Q) :
  0 < a -> 2 ^ magnitude a <= a /\ a < 2 ^ (magnitude a + 1).
Proof.
  intro Ha. destruct a as [n d]. 
  assert (Hn : (0 < n)%Z) by (unfold Qlt in Ha; simpl in Ha; lia).
  unfold magnitude. cbn [Qnum Qden].
  set (ln := Z.log2 n). set (ld := Z.log2 (Z.pos d)). set (k := (ln - ld)%Z).
  destruct (Z.log2_spec n Hn) as [Hn1 Hn2]. fold ln in Hn1, Hn2.
  destruct (Z.log2_spec (Z.pos d) (Pos2Z.is_pos d)) as [Hd1 Hd2]. fold ld in Hd1, Hd2.
  assert (Hln : (0 <= ln)%Z) by apply Z.log2_nonneg.
  assert (Hld : (0 <= ld)%Z) by apply Z.log2_nonneg.
  assert (Qn1 : 2 ^ ln <= inject_Z n)
    by (rewrite <- pow2_inject by assumption; now rewrite <- Zle_Qle).
  assert (Qd1 : 2 ^ ld <= inject_Z (Z.pos d))
    by (rewrite <- pow2_inject by assumption; now rewrite <- Zle_Qle).
  assert (Qn2 : inject_Z n < 2 ^ Z.succ ln)
    by (rewrite <- pow2_inject by lia; now rewrite <- Zlt_Qlt).
  assert (Qd2 : inject_Z (Z.pos d) < 2 ^ Z.succ ld)
    by (rewrite <- pow2_inject by lia; now rewrite <- Zlt_Qlt).
  clear Hn1 Hn2 Hd1 Hd2.
  assert (Ea : n # d == inject_Z n / inject_Z (Z.pos d)) by apply Qmake_Qdiv.
  assert (HD : 0 < inject_Z (Z.pos d)) by reflexivity.
  assert (A : 2 ^ (k - 1) <= n # d).
  { rewrite Ea. apply Qle_shift_div_l; [assumption|].
    apply Qle_trans with (2 ^ (k - 1) * 2 ^ (Z.succ ld)).
    - apply Qmult_le_l; [apply pow2_pos | now apply Qlt_le_weak].
    - rewrite <- pow2_add. replace (k - 1 + Z.succ ld)%Z with ln by (unfold k; lia).
      assumption. }
  assert (B : n # d < 2 ^ (k + 1)).
  { rewrite Ea. apply Qlt_shift_div_r; [assumption|].
    apply Qlt_le_trans with (2 ^ (k + 1) * 2 ^ ld).
    - rewrite <- pow2_add. replace (k + 1 + ld)%Z with (Z.succ ln) by (unfold k; lia).
      assumption.
    - apply Qmult_le_l; [apply pow2_pos | assumption]. }
  destruct (Qle_bool (2 ^ k) (n # d)) eqn:E.
  - apply Qle_bool_iff in E. split; assumption.
  - replace (k - 1 + 1)%Z with k by lia. split; [assumption|].
    apply Qnot_le_lt. intro Hle. apply Qle_bool_iff in Hle. congruence.
Qed.

Lemma exponent_min (a : Q) : (-1074 <= exponent a)%Z.
Proof. unfold exponent. lia. Qed.

Lemma exponent_upper (a : Q) : 0 < a -> a < 2 ^ (exponent a + 53).
Proof.
  intro Ha. destruct (magnitude_spec a Ha) as [_ H].
  apply Qlt_le_trans with (1 := H). apply pow2_le. unfold exponent. lia.
Qed.

Lemma exponent_lower (a : Q) :
  0 < a -> (-1074 < exponent a)%Z -> 2 ^ (exponent a + 52) <= a.
Proof.
  intros Ha He. destruct (magnitude_spec a Ha) as [H _].
  replace (exponent a + 52)%Z with (magnitude a); [assumption|].
  unfold exponent in *. lia.
Qed.

(** ** The scaled significand and the rounded value *)

Lemma scaled_upper (a : Q) (e : Z) : a < 2 ^ (e + 53) -> a / 2 ^ e < 2 ^ 53.
Proof.
  intro H. apply Qlt_shift_div_r; [apply pow2_pos|].
  rewrite <- pow2_add. now replace (53 + e)%Z with (e + 53)%Z by lia.
Qed.

Lemma scaled_lower (a : Q) (e : Z) : 2 ^ (e + 52) <= a -> 2 ^ 52 <= a / 2 ^ e.
Proof.
  intro H. apply Qle_shift_div_l; [apply pow2_pos|].
  rewrite <- pow2_add. now replace (52 + e)%Z with (e + 52)%Z by lia.
Qed.

Lemma rounded_value_upper (a : Q) :
  0 < a -> rounded_value a <= 2 ^ (exponent a + 53).
Proof.
  intro Ha. unfold rounded_value.
  pose proof (scaled_upper a _ (exponent_upper a Ha)) as Hs.
  assert (Hm : (round_half_even (a / 2 ^ exponent a) <= 2 ^ 53)%Z).
  { rewrite <- (rhe_inject_Z (2 ^ 53)). apply rhe_mono.
    rewrite pow2_inject by lia. now apply Qlt_le_weak. }
  rewrite Zle_Qle, pow2_inject in Hm by lia.
  replace (exponent a + 53)%Z with (53 + exponent a)%Z by lia. rewrite pow2_add.
  apply Qmult_le_compat_r; [assumption | apply Qlt_le_weak, pow2_pos].
Qed.

Lemma rounded_value_lower (a : Q) :
  0 < a -> (-1074 < exponent a)%Z -> 2 ^ (exponent a + 52) <= rounded_value a.
Proof.
  intros Ha He. unfold rounded_value.
  pose proof (scaled_lower a _ (exponent_lower a Ha He)) as Hs.
  assert (Hm : (2 ^ 52 <= round_half_even (a / 2 ^ exponent a))%Z).
  { rewrite <- (rhe_inject_Z (2 ^ 52)). apply rhe_mono.
    now rewrite pow2_inject by lia. }
  rewrite Zle_Qle, pow2_inject in Hm by lia.
  replace (exponent a + 52)%Z with (52 + exponent a)%Z by lia. rewrite pow2_add.
  apply Qmult_le_compat_r; [assumption | apply Qlt_le_weak, pow2_pos].
Qed.

Lemma rounded_value_nonneg (a : Q) : 0 < a -> 0 <= rounded_value a.
Proof.
  intro Ha. unfold rounded_value.
  apply Qmult_le_0_compat; [|apply Qlt_le_weak, pow2_pos].
  change 0 with (inject_Z 0). rewrite <- Zle_Qle.
  rewrite <- (rhe_inject_Z 0). apply rhe_mono.
  apply Qle_shift_div_l; [apply pow2_pos|].
  change (inject_Z 0) with 0. rewrite Qmult_0_l. now apply Qlt_le_weak.
Qed.

Lemma rounded_value_mono (a b : Q) :
  0 < a -> a <= b -> rounded_value a <= rounded_value b.
Proof.
  intros Ha Hab. assert (Hb : 0 < b) by lra.
  destruct (Z.lt_trichotomy (exponent a) (exponent b)) as [Hlt | [Heq | Hgt]].
  - apply Qle_trans with (2 ^ (exponent a + 53)); [now apply rounded_value_upper|].
    apply Qle_trans with (2 ^ (exponent b + 52)).
    + apply pow2_le. lia.
    + apply rounded_value_lower; [assumption|]. pose proof (exponent_min a). lia.
  - unfold rounded_value. rewrite Heq.
    apply Qmult_le_compat_r; [|apply Qlt_le_weak, pow2_pos].
    rewrite <- Zle_Qle. apply rhe_mono.
    apply Qmult_le_compat_r; [assumption|].
    apply Qlt_le_weak, Qinv_lt_0_compat, pow2_pos.
  - exfalso.
    assert (H1 : 2 ^ (exponent a + 52) <= a).
    { apply exponent_lower; [assumption|]. pose proof (exponent_min b). lia. }
    pose proof (exponent_upper b Hb) as H2.
    assert (H3 : 2 ^ (exponent b + 53) <= 2 ^ (exponent a + 52)) by (apply pow2_le; lia).
    lra.
Qed.

(** ** Rounding to binary64 *)

Lemma round_positive_value (a : Q) :
  round_positive a
  = if Qle_bool (2 ^ 1024) (rounded_value a) then PosInf else Fin (Qred (rounded_value a)).
Proof. reflexivity. Qed.

Lemma round_positive_mono (a b : Q) :
  0 < a -> a <= b -> leb (round_positive a) (round_positive b) = true.
Proof.
  intros Ha Hab. rewrite !round_positive_value.
  pose proof (rounded_value_mono a b Ha Hab) as Hv.
  destruct (Qle_bool (2 ^ 1024) (rounded_value a)) eqn:Ea;
    destruct (Qle_bool (2 ^ 1024) (rounded_value b)) eqn:Eb; unfold leb;
    try reflexivity.
  - apply Qle_bool_iff in Ea.
    assert (Hle : 2 ^ 1024 <= rounded_value b) by (eapply Qle_trans; eassumption).
    apply Qle_bool_iff in Hle. congruence.
  - apply Qle_bool_iff. now rewrite !Qred_correct.
Qed.

Lemma round_positive_nonneg (a : Q) :
  0 < a -> leb (Fin 0) (round_positive a) = true.
Proof.
  intro Ha. rewrite round_positive_value.
  destruct (Qle_bool (2 ^ 1024) (rounded_value a)); unfold leb; [reflexivity|].
  apply Qle_bool_iff. rewrite Qred_correct. now apply rounded_value_nonneg.
Qed.

Lemma negate_anti (x y : number) : leb x y = true -> leb (negate y) (negate x) = true.
Proof.
  destruct x, y; unfold leb, negate; intro H; try discriminate; try reflexivity.
  apply Qle_bool_iff in H. apply Qle_bool_iff. lra.
Qed.

Lemma leb_trans (x y z : number) :
  leb x y = true -> leb y z = true -> leb x z = true.
Proof.
  destruct x, y, z; unfold leb; intros H1 H2; try discriminate; try reflexivity.
  apply Qle_bool_iff in H1, H2. apply Qle_bool_iff. lra.
Qed.

Lemma round64_cases (q : Q) :
  (q == 0 /\ round64 q = Fin 0) \/
  (0 < q /\ round64 q = round_positive q) \/
  (q < 0 /\ round64 q = negate (round_positive (- q))).
Proof.
  destruct q as [[|n|n] d]; unfold round64; cbn [Qnum].
  - left. split; reflexivity.
  - right. left. split; reflexivity.
  - right. right. split; reflexivity.
Qed.

Lemma round64_mono (a b : Q) : a <= b -> leb (round64 a) (round64 b) = true.
Proof.
  intro Hab.
  destruct (round64_cases a) as [[Ha Ea] | [[Ha Ea] | [Ha Ea]]];
    destruct (round64_cases b) as [[Hb Eb] | [[Hb Eb] | [Hb Eb]]];
    rewrite Ea, Eb; try (exfalso; lra).
  - reflexivity.
  - now apply round_positive_nonneg.
  - now apply round_positive_mono.
  - apply (negate_anti (Fin 0)). apply round_positive_nonneg. lra.
  - apply leb_trans with (Fin 0).
    + apply (negate_anti (Fin 0)). apply round_positive_nonneg. lra.
    + now apply round_positive_nonneg.
  - apply negate_anti. apply round_positive_mono; lra.
Qed.

Lemma round64_not_NaN (q : Q) : round64 q <> NaN.
Proof.
  destruct (round64_cases q) as [[_ E] | [[_ E] | [_ E]]]; rewrite E;
    try discriminate; rewrite round_positive_value;
    destruct (Qle_bool (2 ^ 1024) _); discriminate.
Qed.

Lemma round_positive_comp (a b : Q) :
  0 < a -> a == b -> round_positive a = round_positive b.
Proof.
  intros Ha Hab. assert (Hb : 0 < b) by lra.
  assert (Hv : rounded_value a == rounded_value b).
  { apply Qle_antisym; apply rounded_value_mono; try assumption; lra. }
  rewrite !round_positive_value.
  rewrite (Qred_complete _ _ Hv).
  destruct (Qle_bool (2 ^ 1024) (rounded_value a)) eqn:Ea;
    destruct (Qle_bool (2 ^ 1024) (rounded_value b)) eqn:Eb; try reflexivity; exfalso.
  - apply Qle_bool_iff in Ea. rewrite Hv in Ea. apply Qle_bool_iff in Ea. congruence.
  - apply Qle_bool_iff in Eb. rewrite <- Hv in Eb. apply Qle_bool_iff in Eb. congruence.
Qed.

(** Rounding does not depend on the fraction that represents a rational. *)
Lemma round64_comp (a b : Q) : a == b -> round64 a = round64 b.
Proof.
  intro Hab.
  destruct (round64_cases a) as [[Ha Ea] | [[Ha Ea] | [Ha Ea]]];
    destruct (round64_cases b) as [[Hb Eb] | [[Hb Eb] | [Hb Eb]]];
    rewrite Ea, Eb; try (exfalso; lra).
  - reflexivity.
  - now apply round_positive_comp.
  - f_equal. apply round_positive_comp; lra.
Qed.

Lemma round64_nonneg (q : Q) : 0 <= q -> leb (Fin 0) (round64 q) = true.
Proof. intro H. change (Fin 0) with (round64 0). now apply round64_mono. Qed.

Lemma round64_nonpos (q : Q) : q <= 0 -> leb (round64 q) (Fin 0) = true.
Proof. intro H. change (Fin 0) with (round64 0). now apply round64_mono. Qed.

Lemma round64_not_NegInf (q : Q) : 0 <= q -> round64 q <> NegInf.
Proof.
  intros H E. pose proof (round64_nonneg q H) as L. rewrite E in L. discriminate.
Qed.

(** The integers of the progress formulas are binary64 numbers. *)
Lemma round64_1 : round64 1 = Fin 1.
Proof. vm_compute. reflexivity. Qed.

Lemma round64_100 : round64 100 = Fin 100.
Proof. vm_compute. reflexivity. Qed.

(** ** Comparison with a decimal threshold *)

Lemma magnitude_unique (a : Q) (k : Z) :
  0 < a -> 2 ^ k <= a -> a < 2 ^ (k + 1) -> magnitude a = k.
Proof.
  intros Ha H1 H2. destruct (magnitude_spec a Ha) as [M1 M2].
  destruct (Z.lt_trichotomy (magnitude a) k) as [Hlt | [Heq | Hgt]];
    [exfalso | assumption | exfalso].
  - assert (H : 2 ^ (magnitude a + 1) <= 2 ^ k) by (apply pow2_le; lia). lra.
  - assert (H : 2 ^ (k + 1) <= 2 ^ magnitude a) by (apply pow2_le; lia). lra.
Qed.

Lemma magnitude_lower (a : Q) (k : Z) : 0 < a -> 2 ^ k <= a -> (k <= magnitude a)%Z.
Proof.
  intros Ha H1. destruct (magnitude_spec a Ha) as [_ M2].
  apply Z.nlt_ge. intro Hlt.
  assert (H : 2 ^ (magnitude a + 1) <= 2 ^ k) by (apply pow2_le; lia). lra.
Qed.

(** A decimal threshold [t] whose nearest binary64 number, [M * 2^e], is
    not above it: a binary64 number is at most [t] exactly when it is at
    most the binary64 number that the literal [t] denotes. *)
Lemma threshold_exact (t : Q) (e M : Z) :
  (-1074 <= e)%Z ->
  2 ^ (e + 52) <= t -> t < 2 ^ (e + 53) ->
  inject_Z M * 2 ^ e <= t -> t < inject_Z (M + 1) * 2 ^ e ->
  round64 t = Fin (Qred (inject_Z M * 2 ^ e)) ->
  forall q, leb (round64 q) (Fin t) = leb (round64 q) (round64 t).
Proof.
  intros He T1 T2 M1 M2 Et q.
  assert (Ht : 0 < t) by (pose proof (pow2_pos (e + 52)); lra).
  assert (Hdown : leb (round64 t) (Fin t) = true).
  { rewrite Et. unfold leb. apply Qle_bool_iff. now rewrite Qred_correct. }
  destruct (leb (round64 q) (round64 t)) eqn:E2.
  - now apply leb_trans with (round64 t).
  - destruct (leb (round64 q) (Fin t)) eqn:E1; [exfalso | reflexivity].
    destruct (Qlt_le_dec t q) as [Hq | Hq];
      [| rewrite (round64_mono _ _ Hq) in E2; discriminate E2].
    assert (Hq0 : 0 < q) by lra.
    destruct (round64_cases q) as [[Hz _] | [[_ Eq] | [Hn _]]]; [lra | | lra].
    rewrite Eq, round_positive_value in E1, E2.
    destruct (Qle_bool (2 ^ 1024) (rounded_value q)); [discriminate E1|].
    rewrite Et in E2. unfold leb in E1, E2.
    apply Qle_bool_iff in E1. rewrite Qred_correct in E1.
    assert (E2' : inject_Z M * 2 ^ e < rounded_value q).
    { apply Qnot_le_lt. intro Hle. apply Qle_bool_iff in Hle.
      rewrite <- (Qred_correct (rounded_value q)) in Hle.
      rewrite <- (Qred_correct (inject_Z M * 2 ^ e)) in Hle.
      apply Qle_bool_iff in Hle. apply Qle_bool_iff in Hle. congruence. }
    clear E2.
    destruct (Qlt_le_dec q (2 ^ (e + 53))) as [Hs | Hb].
    + assert (Hm : magnitude q = (e + 52)%Z).
      { apply magnitude_unique; [assumption | lra |].
        now replace (e + 52 + 1)%Z with (e + 53)%Z by lia. }
      assert (Hx : exponent q = e) by (unfold exponent; rewrite Hm; lia).
      unfold rounded_value in E1, E2'. rewrite Hx in E1, E2'.
      set (m := round_half_even (q / 2 ^ e)) in *.
      pose proof (pow2_pos e) as Hp.
      assert (Hlt : inject_Z m * 2 ^ e < inject_Z (M + 1) * 2 ^ e) by lra.
      assert (Hgt : inject_Z M * 2 ^ e < inject_Z m * 2 ^ e) by lra.
      apply Qmult_lt_r in Hlt; [|assumption].
      apply Qmult_lt_r in Hgt; [|assumption].
      rewrite <- Zlt_Qlt in Hlt, Hgt. lia.
    + assert (Hm : (e + 53 <= magnitude q)%Z) by (now apply magnitude_lower).
      assert (Hx : (-1074 < exponent q)%Z) by (unfold exponent; lia).
      pose proof (rounded_value_lower q Hq0 Hx) as Hl.
      assert (Hp : 2 ^ (e + 53) <= 2 ^ (exponent q + 52))
        by (apply pow2_le; unfold exponent; lia).
      lra.
Qed.

Lemma threshold_030 (q : Q) :
  leb (round64 q) (Fin 0.3) = leb (round64 q) (literal 0.3).
Proof.
  unfold literal.
  apply (threshold_exact 0.3 (-54) 5404319552844595);
    first [ lia
          | apply Qle_bool_iff; vm_compute; reflexivity
          | apply Qlt_alt; vm_compute; reflexivity
          | vm_compute; reflexivity ].
Qed.

Lemma threshold_015 (q : Q) :
  leb (round64 q) (Fin 0.15) = leb (round64 q) (literal 0.15).
Proof.
  unfold literal.
  apply (threshold_exact 0.15 (-55) 5404319552844595);
    first [ lia
          | apply Qle_bool_iff; vm_compute; reflexivity
          | apply Qlt_alt; vm_compute; reflexivity
          | vm_compute; reflexivity ].
Qed.

End Binary64.

(* ================================================================== *)
(** * The tier classifiers *)
(* ================================================================== *)

Module TierFacts.
Import JS DoraQuickCheck.

(** C2.  [cfrTier] sends null to n/a, a rate of at most 0.15 to elite, a
    rate in (0.15, 0.30] to medium and a rate above 0.30 to low; whatever
    the argument, the result is never high.  At the boundaries: 0.15 is
    elite, 0.151 is medium, 0.31 is low. *)
Theorem cfrTier_bands (c : number) :
  cfrTier None = na /\
  ((c <=? Fin 0.15)%js = true -> cfrTier (Some c) = elite) /\
  ((c >? Fin 0.15)%js = true -> (c <=? Fin 0.3)%js = true ->
     cfrTier (Some c) = medium) /\
  ((c >? Fin 0.3)%js = true -> cfrTier (Some c) = low) /\
  (forall o : option number, cfrTier o <> high) /\
  cfrTier (Some (Fin 0.15)) = elite /\
  cfrTier (Some (Fin 0.151)) = medium /\
  cfrTier (Some (Fin 0.31)) = low.
Proof.
  repeat split; try reflexivity.
  - intro H. simpl. now rewrite H.
  - intros H1 H2. simpl. rewrite H2.
    destruct c; simpl in *; try discriminate.
    qcases; qprop; [lra | reflexivity].
  - intro H. destruct c; simpl in *; try discriminate; try reflexivity.
    qcases; qprop; try lra; reflexivity.
  - intros [n|]; simpl; [|discriminate].
    destruct (n <=? Fin 0.15)%js; [discriminate|].
    destruct (n <=? Fin 0.3)%js; discriminate.
Qed.

Lemma cfrTier_bands_witness :
  cfrTier (Some (Fin 0.1)) = elite /\
  cfrTier (Some (Fin 0.2)) = medium /\
  cfrTier (Some (Fin 0.5)) = low.
Proof.
  split; [|split].
  - apply (proj1 (proj2 (cfrTier_bands (Fin 0.1)))). reflexivity.
  - apply (proj1 (proj2 (proj2 (cfrTier_bands (Fin 0.2))))); reflexivity.
  - apply (proj1 (proj2 (proj2 (proj2 (cfrTier_bands (Fin 0.5)))))). reflexivity.
Defined.

(** C3.  [freqTier] sends a frequency of at least 30 to elite, one in
    [4, 30) to high, one in [1, 4) to medium, one in (0, 1) to low, and
    everything else (a frequency that is not above 0) to n/a.  At the
    boundaries: 0 is n/a, 29.9 is high, 30 is elite. *)
Theorem freqTier_bands (p : number) :
  ((p >=? Fin 30)%js = true -> freqTier p = elite) /\
  ((p >=? Fin 4)%js = true -> (p <? Fin 30)%js = true -> freqTier p = high) /\
  ((p >=? Fin 1)%js = true -> (p <? Fin 4)%js = true -> freqTier p = medium) /\
  ((p >? Fin 0)%js = true -> (p <? Fin 1)%js = true -> freqTier p = low) /\
  ((p >? Fin 0)%js = false -> freqTier p = na) /\
  ((p <=? Fin 0)%js = true -> freqTier p = na) /\
  freqTier (Fin 0) = na /\
  freqTier (Fin 29.9) = high /\
  freqTier (Fin 30) = elite.
Proof.
  repeat split; try reflexivity.
  - intro H. unfold freqTier, geb in *. simpl in *. now rewrite H.
  - intros H1 H2. destruct p; simpl in *; try discriminate.
    unfold freqTier, geb, gtb; simpl. qcases; qprop; try lra; reflexivity.
  - intros H1 H2. destruct p; simpl in *; try discriminate.
    unfold freqTier, geb, gtb; simpl. qcases; qprop; try lra; reflexivity.
  - intros H1 H2. destruct p; simpl in *; try discriminate.
    unfold freqTier, geb, gtb; simpl. qcases; qprop; try lra; reflexivity.
  - intro H. destruct p; simpl in *; try discriminate; try reflexivity.
    unfold freqTier, geb, gtb; simpl. qcases; qprop; try lra; reflexivity.
  - intro H. destruct p; simpl in *; try discriminate; try reflexivity.
    unfold freqTier, geb, gtb; simpl. qcases; qprop; try lra; reflexivity.
Qed.

Lemma freqTier_bands_witness :
  freqTier (Fin 45) = elite /\
  freqTier (Fin 12) = high /\
  freqTier (Fin 2.5) = medium /\
  freqTier (Fin 0.5) = low /\
  freqTier NaN = na /\
  freqTier (Fin (-3)) = na.
Proof.
  refine (conj _ (conj _ (conj _ (conj _ (conj _ _))))).
  - apply (freqTier_bands (Fin 45)); reflexivity.
  - apply (freqTier_bands (Fin 12)); reflexivity.
  - apply (freqTier_bands (Fin 2.5)); reflexivity.
  - apply (freqTier_bands (Fin 0.5)); reflexivity.
  - apply (freqTier_bands NaN); reflexivity.
  - apply (freqTier_bands (Fin (-3))); reflexivity.
Defined.

(** C8.  [leadTier] sends null to n/a, a lead time of at most 1 day to
    elite, one in (1, 7] to high, one in (7, 30] to medium and one above
    30 to low.  At the boundaries: 1 is elite, 7 is high, 30 is medium,
    31 is low. *)
Theorem leadTier_bands (days : number) :
  leadTier None = na /\
  ((days <=? Fin 1)%js = true -> leadTier (Some days) = elite) /\
  ((days >? Fin 1)%js = true -> (days <=? Fin 7)%js = true ->
     leadTier (Some days) = high) /\
  ((days >? Fin 7)%js = true -> (days <=? Fin 30)%js = true ->
     leadTier (Some days) = medium) /\
  ((days >? Fin 30)%js = true -> leadTier (Some days) = low) /\
  leadTier (Some (Fin 1)) = elite /\
  leadTier (Some (Fin 7)) = high /\
  leadTier (Some (Fin 30)) = medium /\
  leadTier (Some (Fin 31)) = low.
Proof.
  repeat split; try reflexivity.
  - intro H. simpl. now rewrite H.
  - intros H1 H2. destruct days; simpl in *; try discriminate.
    qcases; qprop; try lra; reflexivity.
  - intros H1 H2. destruct days; simpl in *; try discriminate.
    qcases; qprop; try lra; reflexivity.
  - intro H. destruct days; simpl in *; try discriminate; try reflexivity.
    qcases; qprop; try lra; reflexivity.
Qed.

Lemma leadTier_bands_witness :
  leadTier (Some (Fin 0.5)) = elite /\
  leadTier (Some (Fin 3)) = high /\
  leadTier (Some (Fin 14)) = medium /\
  leadTier (Some (Fin 90)) = low /\
  leadTier (Some PosInf) = low.
Proof.
  refine (conj _ (conj _ (conj _ (conj _ _)))).
  - apply (leadTier_bands (Fin 0.5)); reflexivity.
  - apply (leadTier_bands (Fin 3)); reflexivity.
  - apply (leadTier_bands (Fin 14)); reflexivity.
  - apply (leadTier_bands (Fin 90)); reflexivity.
  - apply (leadTier_bands PosInf); reflexivity.
Defined.

(** On a binary64 number, and the change failure rate of [metrics] is
    one, [cfrTier] decides as the comparisons with the binary64 numbers
    that the literals 0.15 and 0.3 of the source denote. *)
Lemma cfrTier_binary64 (q : Q) :
  cfrTier (Some (round64 q)) =
  if (round64 q <=? literal 0.15)%js then elite
  else if (round64 q <=? literal 0.3)%js then medium
  else low.
Proof.
  unfold cfrTier. now rewrite Binary64.threshold_015, Binary64.threshold_030.
Qed.

(** C1.  For deploys = 12, team = 20, squads = 4, errors = 2,
    leadDays = 3, mttrHours = 8: perSquad is 3, perEngineer is 0.6 (the
    binary64 number that the literal 0.6 denotes), the change failure
    rate is 2/12 (rounded to binary64), which is 16.7% to one decimal and
    is classified medium; frequency, lead time and MTTR are classified
    high. *)
Theorem end_to_end_example :
  let st := {| deploys := Num (Fin 12); team := Num (Fin 20); squads := Num (Fin 4);
               errors := Num (Fin 2); leadDays := Num (Fin 3);
               mttrHours := Num (Fin 8) |} in
  let m := metrics (validNumbers st) in
  perSquad m =~ Fin 3 /\
  perEng m =~ literal 0.6 /\
  (exists c, cfr m = Some c /\ c =~ round64 (2 / 12) /\
             Math_round (c * Fin 1000)%js =~ Fin 167) /\
  cfrT m = medium /\
  freq m = high /\
  ltT m = high /\
  mttrT m = high.
Proof.
  cbv zeta. refine (conj _ (conj _ (conj _ (conj _ (conj _ (conj _ _)))))).
  - vm_compute. reflexivity.
  - vm_compute. reflexivity.
  - eexists. split; [reflexivity|]. vm_compute. split; reflexivity.
  - vm_compute. reflexivity.
  - vm_compute. reflexivity.
  - vm_compute. reflexivity.
  - vm_compute. reflexivity.
Qed.

End TierFacts.

(* ================================================================== *)
(** * Rounding and order *)
(* ================================================================== *)

Module JSOrder.
Import JS.

Lemma round_ge_iff (k : Z) (y : Q) :
  (k <= round_half_up y)%Z <-> inject_Z k - (1 # 2) <= y.
Proof.
  unfold round_half_up. split; intro H.
  - rewrite Zle_Qle in H.
    pose proof (Qfloor_le (y + (1 # 2))) as Hf. lra.
  - rewrite <- (Qfloor_Z k). apply Qfloor_resp_le. lra.
Qed.

Lemma round_lt_iff (k : Z) (y : Q) :
  (round_half_up y < k)%Z <-> y < inject_Z k - (1 # 2).
Proof.
  split; intro H.
  - apply Qnot_le_lt. intro Hle. apply round_ge_iff in Hle. lia.
  - apply Z.nle_gt. intro Hle. apply round_ge_iff in Hle. lra.
Qed.

Lemma round_mono (x y : Q) : x <= y -> (round_half_up x <= round_half_up y)%Z.
Proof.
  intro H. unfold round_half_up. apply Qfloor_resp_le. lra.
Qed.

Lemma round_inject_Z (k : Z) : round_half_up (inject_Z k) = k.
Proof.
  apply Z.le_antisymm.
  - apply Z.lt_succ_r. apply round_lt_iff.
    rewrite <- Z.add_1_r, inject_Z_plus. change (inject_Z 1) with 1. lra.
  - apply round_ge_iff. lra.
Qed.

Lemma round_comp (x y : Q) : x == y -> round_half_up x = round_half_up y.
Proof.
  intro H. unfold round_half_up. apply Qfloor_comp. now rewrite H.
Qed.

(** Operations on finite operands. *)

Lemma div_Fin (a b : Q) : ~ b == 0 -> (Fin a / Fin b)%js = round64 (a / b).
Proof.
  intro H. unfold div. apply JSFacts.Qeq_bool_false in H. now rewrite H.
Qed.

Lemma mul_Fin (a b : Q) : (Fin a * Fin b)%js = round64 (a * b).
Proof. reflexivity. Qed.

Lemma sub_Fin (a b : Q) : (Fin a - Fin b)%js = round64 (a - b).
Proof. reflexivity. Qed.

Lemma round_Fin (a : Q) : Math_round (Fin a) = Fin (inject_Z (round_half_up a)).
Proof. reflexivity. Qed.

Lemma min_Fin (a b : Q) :
  Math_min (Fin a) (Fin b) = if Qle_bool a b then Fin a else Fin b.
Proof. reflexivity. Qed.

Lemma max_Fin (a b : Q) :
  Math_max (Fin a) (Fin b) = if Qle_bool a b then Fin b else Fin a.
Proof. reflexivity. Qed.

(** The constants of the source that are not written as integers. *)

Lemma literal_03 : literal 0.3 = Fin (5404319552844595 # 18014398509481984).
Proof. vm_compute. reflexivity. Qed.

Lemma literal_030 : literal 0.30 = literal 0.3.
Proof. unfold literal. apply Binary64.round64_comp. reflexivity. Qed.

Lemma sub_168_1 : (Fin 168 - Fin 1)%js = Fin 167.
Proof. vm_compute. reflexivity. Qed.

Lemma mul_24_7 : (Fin 24 * Fin 7)%js = Fin 168.
Proof. vm_compute. reflexivity. Qed.

(** The order on numbers. *)

Lemma leb_refl (x : number) : x <> NaN -> (x <=? x)%js = true.
Proof.
  destruct x; intro H; unfold leb; try reflexivity; [|contradiction].
  apply Qle_bool_iff. apply Qle_refl.
Qed.

Lemma leb_left (x y : number) : (x <=? y)%js = true -> x <> NaN.
Proof. destruct x; unfold leb; intros H E; discriminate. Qed.

Lemma leb_right (x y : number) : (x <=? y)%js = true -> y <> NaN.
Proof. destruct x, y; unfold leb; intros H E; discriminate. Qed.

Lemma leb_PosInf (x : number) : x <> NaN -> (x <=? PosInf)%js = true.
Proof. destruct x; intro H; try reflexivity. contradiction. Qed.

Lemma leb_NegInf (x : number) : x <> NaN -> (NegInf <=? x)%js = true.
Proof. destruct x; intro H; try reflexivity. contradiction. Qed.

(** Every operation the progress bars use respects [x <= y]. *)

Lemma div_mono (c : Q) (x y : number) :
  0 < c -> (x <=? y)%js = true -> (x / Fin c <=? y / Fin c)%js = true.
Proof.
  intros Hc H.
  assert (Hz : Qeq_bool c 0 = false) by (qprop; lra).
  assert (Hp : Qle_bool 0 c = true) by (qprop; lra).
  destruct x as [a | | |], y as [b | | |]; unfold leb in H; try discriminate H;
    unfold div; rewrite ?Hz, ?Hp;
    first [ apply leb_PosInf, Binary64.round64_not_NaN
          | apply leb_NegInf, Binary64.round64_not_NaN
          | apply Binary64.round64_mono
          | reflexivity ].
  qprop. unfold Qdiv. apply Qmult_le_compat_r; [assumption|].
  apply Qlt_le_weak, Qinv_lt_0_compat, Hc.
Qed.

Lemma signed_inf_pos (pos : bool) (c : Q) :
  0 < c -> signed_inf pos c = if pos then PosInf else NegInf.
Proof.
  intro Hc. unfold signed_inf.
  apply Qgt_alt in Hc. now rewrite Hc.
Qed.

Lemma mul_mono (c : Q) (x y : number) :
  0 < c -> (x <=? y)%js = true -> (x * Fin c <=? y * Fin c)%js = true.
Proof.
  intros Hc H.
  destruct x as [a | | |], y as [b | | |]; unfold leb in H; try discriminate H;
    unfold mul; rewrite ?(signed_inf_pos _ _ Hc);
    first [ apply leb_PosInf, Binary64.round64_not_NaN
          | apply leb_NegInf, Binary64.round64_not_NaN
          | apply Binary64.round64_mono
          | reflexivity ].
  qprop. apply Qmult_le_compat_r; [assumption | lra].
Qed.

Lemma sub_mono (c : Q) (x y : number) :
  (x <=? y)%js = true -> (x - Fin c <=? y - Fin c)%js = true.
Proof.
  intro H.
  destruct x as [a | | |], y as [b | | |]; unfold leb in H; try discriminate H;
    unfold sub;
    first [ apply leb_PosInf, Binary64.round64_not_NaN
          | apply leb_NegInf, Binary64.round64_not_NaN
          | apply Binary64.round64_mono
          | reflexivity ].
  qprop. lra.
Qed.

Lemma sub_from_anti (c : Q) (x y : number) :
  (x <=? y)%js = true -> (Fin c - y <=? Fin c - x)%js = true.
Proof.
  intro H.
  destruct x as [a | | |], y as [b | | |]; unfold leb in H; try discriminate H;
    unfold sub;
    first [ apply leb_PosInf, Binary64.round64_not_NaN
          | apply leb_NegInf, Binary64.round64_not_NaN
          | apply Binary64.round64_mono
          | reflexivity ].
  qprop. lra.
Qed.

Lemma Math_round_mono (x y : number) :
  (x <=? y)%js = true -> (Math_round x <=? Math_round y)%js = true.
Proof.
  intro H. destruct x, y; unfold leb, Math_round in *; try discriminate;
    try reflexivity.
  qprop. rewrite <- Zle_Qle. now apply round_mono.
Qed.

Lemma Math_min_mono (c : Q) (x y : number) :
  (x <=? y)%js = true -> (Math_min (Fin c) x <=? Math_min (Fin c) y)%js = true.
Proof.
  intro H. destruct x, y; unfold Math_min, leb in *; try discriminate;
    qcases; qprop; try lra; try reflexivity.
Qed.

Lemma Math_max_mono (c : Q) (x y : number) :
  (x <=? y)%js = true -> (Math_max (Fin c) x <=? Math_max (Fin c) y)%js = true.
Proof.
  intro H. destruct x, y; unfold Math_max, leb in *; try discriminate;
    qcases; qprop; try lra; try reflexivity.
Qed.

(** [Math.min] and [Math.max] at an operand that is past the bound. *)

Lemma min_absorb (c : Q) (z : number) :
  (Fin c <=? z)%js = true -> Math_min (Fin c) z = Fin c.
Proof.
  intro H. destruct z; unfold leb in H; try discriminate H;
    unfold Math_min, leb; now rewrite ?H.
Qed.


Lemma max_round_absorb (w : number) :
  (Math_round w <=? Fin 0)%js = true -> Math_max (Fin 0) (Math_round w) = Fin 0.
Proof.
  intro H. destruct w as [q | | |]; unfold Math_round, leb in H; try discriminate H;
    unfold Math_round, Math_max, leb; [|reflexivity].
  destruct (Qle_bool 0 (inject_Z (round_half_up q))) eqn:E; [|reflexivity].
  qprop. change 0 with (inject_Z 0) in H, E. rewrite <- Zle_Qle in H, E.
  now replace (round_half_up q) with 0%Z by lia.
Qed.

End JSOrder.

(* ================================================================== *)
(** * The progress bars *)
(* ================================================================== *)

Module ProgressFacts.
Import JS DoraQuickCheck Spec JSOrder.

(** Rounding to an integer commutes with clamping at an integer. *)

Lemma round_min_commute (k : Z) (w : number) :
  Math_min (Fin (inject_Z k)) (Math_round w)
  = Math_round (Math_min (Fin (inject_Z k)) w).
Proof.
  destruct w as [q | | |]; unfold Math_round at 1; unfold Math_min, leb.
  - destruct (Qle_bool (inject_Z k) (inject_Z (round_half_up q))) eqn:E1;
      destruct (Qle_bool (inject_Z k) q) eqn:E2; unfold Math_round; qprop.
    + now rewrite round_inject_Z.
    + rewrite <- Zle_Qle in E1.
      assert (Hr : (round_half_up q <= k)%Z)
        by (rewrite <- (round_inject_Z k); apply round_mono; lra).
      now replace (round_half_up q) with k by lia.
    + exfalso. rewrite <- Zlt_Qlt in E1.
      assert (Hr : (k <= round_half_up q)%Z)
        by (rewrite <- (round_inject_Z k) at 1; now apply round_mono).
      lia.
    + reflexivity.
  - reflexivity.
  - unfold Math_round. now rewrite round_inject_Z.
  - reflexivity.
Qed.

Lemma round_max_commute (k : Z) (w : number) :
  Math_max (Fin (inject_Z k)) (Math_round w)
  = Math_round (Math_max (Fin (inject_Z k)) w).
Proof.
  destruct w as [q | | |]; unfold Math_round at 1; unfold Math_max, leb.
  - destruct (Qle_bool (inject_Z k) (inject_Z (round_half_up q))) eqn:E1;
      destruct (Qle_bool (inject_Z k) q) eqn:E2; unfold Math_round; qprop.
    + reflexivity.
    + rewrite <- Zle_Qle in E1.
      assert (Hr : (round_half_up q <= k)%Z)
        by (rewrite <- (round_inject_Z k); apply round_mono; lra).
      rewrite round_inject_Z. now replace (round_half_up q) with k by lia.
    + exfalso. rewrite <- Zlt_Qlt in E1.
      assert (Hr : (k <= round_half_up q)%Z)
        by (rewrite <- (round_inject_Z k) at 1; now apply round_mono).
      lia.
    + now rewrite round_inject_Z.
  - reflexivity.
  - reflexivity.
  - unfold Math_round. now rewrite round_inject_Z.
Qed.

(** In the code the bars are rounded first and clamped then; they are the
    clamped normalisations of the specification, rounded. *)

Lemma freqPct_of_spec (x : number) : freqPct_of x = Math_round (spec_frequency x).
Proof.
  unfold freqPct_of, spec_frequency, linear_frequency.
  change (Fin 100) with (Fin (inject_Z 100)) at 1 3.
  apply round_min_commute.
Qed.

Lemma cfrPct_of_spec (c : option number) : cfrPct_of c = percent_of spec_cfr c.
Proof.
  destruct c as [c|]; [|reflexivity].
  unfold cfrPct_of, percent_of, spec_cfr, linear_cfr. rewrite literal_030.
  change (Fin 0) with (Fin (inject_Z 0)). apply round_max_commute.
Qed.

Lemma ltPct_of_spec (o : option number) : ltPct_of o = percent_of spec_leadTime o.
Proof.
  destruct o as [x|]; [|reflexivity].
  unfold ltPct_of, percent_of, spec_leadTime, linear_leadTime.
  change (Fin 100) with (Fin (inject_Z 100)) at 1 3.
  change (Fin 0) with (Fin (inject_Z 0)).
  rewrite round_min_commute. apply round_max_commute.
Qed.

Lemma mttrPct_of_spec (o : option number) : mttrPct_of o = percent_of spec_mttr o.
Proof.
  destruct o as [x|]; [|reflexivity].
  unfold mttrPct_of, percent_of, spec_mttr, linear_mttr. rewrite sub_168_1.
  change (Fin 100) with (Fin (inject_Z 100)) at 1 3.
  change (Fin 0) with (Fin (inject_Z 0)).
  rewrite round_min_commute. apply round_max_commute.
Qed.

(** The normalisations respect the order of their argument. *)

Lemma linear_frequency_mono (x y : number) :
  (x <=? y)%js = true -> (linear_frequency x <=? linear_frequency y)%js = true.
Proof.
  intro H. unfold linear_frequency.
  apply mul_mono; [reflexivity|]. apply div_mono; [reflexivity | assumption].
Qed.

Lemma linear_cfr_anti (x y : number) :
  (x <=? y)%js = true -> (linear_cfr y <=? linear_cfr x)%js = true.
Proof.
  intro H. unfold linear_cfr. rewrite literal_030, literal_03.
  apply mul_mono; [reflexivity|].
  apply sub_from_anti, div_mono; [reflexivity | assumption].
Qed.

Lemma linear_leadTime_anti (x y : number) :
  (x <=? y)%js = true -> (linear_leadTime y <=? linear_leadTime x)%js = true.
Proof.
  intro H. unfold linear_leadTime.
  apply mul_mono; [reflexivity|].
  apply sub_from_anti, div_mono; [reflexivity|]. apply sub_mono, H.
Qed.

Lemma linear_mttr_anti (x y : number) :
  (x <=? y)%js = true -> (linear_mttr y <=? linear_mttr x)%js = true.
Proof.
  intro H. unfold linear_mttr.
  apply mul_mono; [reflexivity|].
  apply sub_from_anti, div_mono; [reflexivity|]. apply sub_mono, H.
Qed.

(** The normalisations at the ends of their scales. *)

Lemma linear_frequency_0 : linear_frequency (Fin 0) = Fin 0.
Proof. vm_compute. reflexivity. Qed.


Lemma linear_cfr_0 : linear_cfr (Fin 0) = Fin 100.
Proof. vm_compute. reflexivity. Qed.






End ProgressFacts.

(* ================================================================== *)
(** * Coercion of the inputs *)
(* ================================================================== *)

Module CoercionFacts.
Import JS DoraQuickCheck Spec JSOrder.

Lemma clampNum_Fin (q : Q) :
  clampNum (Fin q) =
  if Qle_bool q 0
  then Fin 0
  else if Qle_bool q 9007199254740991 then Fin q else Fin 9007199254740991.
Proof.
  unfold clampNum, clampNum_, MAX_SAFE_INTEGER, isFinite.
  rewrite max_Fin. destruct (Qle_bool q 0); rewrite min_Fin; reflexivity.
Qed.

Lemma clampNum_not_finite (v : number) : isFinite v = false -> clampNum v = Fin 0.
Proof.
  intro H. unfold clampNum, clampNum_. now rewrite H.
Qed.

(** [clampNum] always returns a finite number between 0 and
    [Number.MAX_SAFE_INTEGER]. *)
Lemma clampNum_bounds (v : number) :
  exists q, clampNum v = Fin q /\ 0 <= q <= 9007199254740991.
Proof.
  destruct v as [q | | |];
    try (exists 0; split; [reflexivity | lra]).
  rewrite clampNum_Fin.
  destruct (Qle_bool q 0) eqn:E0; [exists 0; split; [reflexivity | lra]|].
  destruct (Qle_bool q 9007199254740991) eqn:E1; qprop.
  - exists q. split; [reflexivity | lra].
  - exists 9007199254740991. split; [reflexivity | lra].
Qed.

Lemma clampNum_range (v : number) : coerced_field (Num (clampNum v)).
Proof.
  destruct (clampNum_bounds v) as (q & E & Hq). rewrite E. apply Hq.
Qed.

(** A non-positive number is clamped to 0. *)
Lemma clampNum_nonpositive (v : number) :
  (v <=? Fin 0)%js = true -> clampNum v = Fin 0.
Proof.
  destruct v; intro H; try reflexivity.
  rewrite clampNum_Fin. unfold leb in H. now rewrite H.
Qed.

Lemma coerce_coerced (ToNumber : string -> number) (v : string) :
  coerced_field (coerce ToNumber v).
Proof.
  unfold coerce. destruct (String.eqb v EmptyString).
  - exact I.
  - apply clampNum_range.
Qed.


Lemma initial_coerced : coerced initial.
Proof.
  unfold coerced, initial; simpl. repeat split; lra.
Qed.

(** Every state the component reaches is a coerced input set. *)
Lemma reachable_coerced (ToNumber : string -> number) (st : State) :
  reachable ToNumber st -> coerced st.
Proof.
  induction 1 as [| i v st Hr IH].
  - apply initial_coerced.
  - pose proof (coerce_coerced ToNumber v) as Hc.
    destruct IH as (H1 & H2 & H3 & H4 & H5 & H6).
    destruct i; unfold coerced; simpl; tauto.
Qed.

Lemma number_or_nonneg (f : field) (dflt : Q) :
  coerced_field f -> 0 <= dflt -> nonneg (number_or f (Fin dflt)).
Proof.
  intros Hf Hd. destruct f as [| [q | | | ]]; simpl in *; try contradiction.
  - exists dflt. split; [reflexivity | assumption].
  - exists q. split; [reflexivity | lra].
Qed.

Lemma number_or_null_nonneg (f : field) :
  coerced_field f -> opt_nonneg (number_or_null f).
Proof.
  intros Hf. destruct f as [| [q | | | ]]; simpl in *; try contradiction.
  - exact I.
  - exists q. split; [reflexivity | lra].
Qed.

(** [x || 1] on a non-negative number is [x] when [x] is above 0, and
    1 when [x] is 0. *)
Lemma or_one (q : Q) :
  0 <= q ->
  (0 < q /\ (Fin q || Fin 1)%js = Fin q) \/ (q == 0 /\ (Fin q || Fin 1)%js = Fin 1).
Proof.
  intro Hq. unfold or, truthy.
  destruct (Qeq_bool q 0) eqn:E; simpl; qprop.
  - right. split; [assumption | reflexivity].
  - left. split; [lra | reflexivity].
Qed.

(** On a coerced input set, [validNumbers] holds finite non-negative
    numbers, and a divisor [s] above 0. *)
Lemma validNumbers_coerced (st : State) :
  coerced st ->
  let v := validNumbers st in
  nonneg (d v) /\ nonneg (t v) /\ positive (s v) /\ nonneg (e v) /\
  opt_nonneg (ld v) /\ opt_nonneg (mh v).
Proof.
  intros (H1 & H2 & H3 & H4 & H5 & H6). cbv zeta. unfold validNumbers; simpl.
  repeat split;
    try (apply number_or_nonneg; [assumption | lra]);
    try (apply number_or_null_nonneg; assumption).
  destruct (number_or_nonneg (squads st) 1 H3) as (q & Eq & Hq); [lra|].
  rewrite Eq. destruct (or_one q Hq) as [[Hp E] | [Hz E]]; rewrite E.
  - exists q. split; [reflexivity | assumption].
  - exists 1. split; [reflexivity | lra].
Qed.

(** The quotient of a number that is at least 0 and a number above 0 is
    at least 0; it is +Infinity when it overflows. *)
Lemma div_not_negative (a b : Q) : 0 <= a -> 0 < b -> not_negative (Fin a / Fin b)%js.
Proof.
  intros Ha Hb. unfold not_negative. rewrite div_Fin by lra.
  apply Binary64.round64_nonneg. apply Qle_shift_div_l; [assumption | lra].
Qed.

(** On non-negative [d] and [e], the change failure rate is null or a
    number in [0, 1]. *)
Lemma cfr_ratio (qd qe : Q) :
  0 <= qd -> 0 <= qe ->
  let c := if (Fin qd >? Fin 0)%js then Some (Math_min (Fin 1) (Fin qe / Fin qd)%js)
           else None in
  match c with
  | None => qd == 0
  | Some r => 0 < qd /\ is_ratio r
  end.
Proof.
  intros Hd He. cbv zeta. unfold gtb, ltb.
  destruct (Qlt_bool 0 qd) eqn:E; qprop; [|lra].
  split; [assumption|].
  pose proof (div_not_negative qe qd He E) as Hn. unfold not_negative in Hn.
  destruct (Fin qe / Fin qd)%js as [r | | |]; unfold leb in Hn; try discriminate Hn.
  - rewrite min_Fin. destruct (Qle_bool 1 r) eqn:E1; qprop.
    + exists 1. split; [reflexivity | lra].
    + exists r. split; [reflexivity | lra].
  - exists 1. split; [reflexivity | lra].
Qed.

End CoercionFacts.

(* ================================================================== *)
(** * The derived metrics *)
(* ================================================================== *)

Module MetricsFacts.
Import JS DoraQuickCheck Spec JSOrder ProgressFacts CoercionFacts.

(** The fields of [metrics], one by one. *)

Lemma perSquad_metrics (v : ValidNumbers) : perSquad (metrics v) = (d v / s v)%js.
Proof. destruct v; reflexivity. Qed.

Lemma perEng_metrics (v : ValidNumbers) :
  perEng (metrics v) = if truthy (t v) then (d v / t v)%js else Fin 0.
Proof. destruct v; reflexivity. Qed.

Lemma cfr_metrics (v : ValidNumbers) :
  cfr (metrics v) =
  if (d v >? Fin 0)%js then Some (Math_min (Fin 1) (e v / d v)%js) else None.
Proof. destruct v; reflexivity. Qed.

Lemma freqPct_metrics (v : ValidNumbers) : freqPct (metrics v) = freqPct_of (d v).
Proof. destruct v; reflexivity. Qed.

Lemma cfrPct_metrics (v : ValidNumbers) :
  cfrPct (metrics v) = cfrPct_of (cfr (metrics v)).
Proof. destruct v; reflexivity. Qed.

Lemma ltPct_metrics (v : ValidNumbers) : ltPct (metrics v) = ltPct_of (ld v).
Proof. destruct v; reflexivity. Qed.

Lemma mttrPct_metrics (v : ValidNumbers) : mttrPct (metrics v) = mttrPct_of (mh v).
Proof. destruct v; reflexivity. Qed.

Lemma tiers_metrics (v : ValidNumbers) :
  freq (metrics v) = freqTier (d v) /\
  cfrT (metrics v) = cfrTier (cfr (metrics v)) /\
  ltT (metrics v) = leadTier (ld v) /\
  mttrT (metrics v) = mttrTier (mh v).
Proof. destruct v; repeat split. Qed.

(** On a coerced input set the change failure rate is null or in [0, 1]. *)
Lemma cfr_metrics_ratio (st : State) :
  coerced st ->
  match cfr (metrics (validNumbers st)) with
  | None => True
  | Some c => is_ratio c
  end.
Proof.
  intro H. destruct (validNumbers_coerced st H) as (Hd & _ & _ & He & _ & _).
  rewrite cfr_metrics.
  destruct Hd as (qd & Ed & Hqd). destruct He as (qe & Ee & Hqe). rewrite Ed, Ee.
  pose proof (cfr_ratio qd qe Hqd Hqe) as Hc. cbv zeta in Hc.
  destruct (if (Fin qd >? Fin 0)%js
            then Some (Math_min (Fin 1) (Fin qe / Fin qd)%js) else None);
    [apply Hc | exact I].
Qed.

(** Clamping gives a finite number in [0, 100]. *)

Lemma min_range (w : number) :
  (Fin 0 <=? w)%js = true -> exists y, Math_min (Fin 100) w = Fin y /\ 0 <= y <= 100.
Proof.
  intro H. destruct w as [q | | |]; unfold leb in H; try discriminate H.
  - rewrite min_Fin. destruct (Qle_bool 100 q) eqn:E; qprop.
    + exists 100. split; [reflexivity | lra].
    + exists q. split; [reflexivity | lra].
  - exists 100. split; [reflexivity | lra].
Qed.

Lemma max_range (w : number) :
  (w <=? Fin 100)%js = true -> exists y, Math_max (Fin 0) w = Fin y /\ 0 <= y <= 100.
Proof.
  intro H. destruct w as [q | | |]; unfold leb in H; try discriminate H.
  - rewrite max_Fin. destruct (Qle_bool 0 q) eqn:E; qprop.
    + exists q. split; [reflexivity | lra].
    + exists 0. split; [reflexivity | lra].
  - exists 0. split; [reflexivity | lra].
Qed.

Lemma clamp_range (w : number) :
  w <> NaN ->
  exists y, Math_max (Fin 0) (Math_min (Fin 100) w) = Fin y /\ 0 <= y <= 100.
Proof.
  intro H. apply max_range.
  destruct w as [q | | |]; try contradiction; try reflexivity.
  rewrite min_Fin. destruct (Qle_bool 100 q) eqn:E; unfold leb; qprop; lra.
Qed.

Lemma round_percent (y : Q) :
  0 <= y <= 100 -> (0 <= round_half_up y <= 100)%Z.
Proof.
  intros [H0 H100]. split.
  - apply round_ge_iff. change (inject_Z 0) with 0. lra.
  - apply Z.lt_succ_r. apply round_lt_iff.
    change (inject_Z (Z.succ 100)) with 101. lra.
Qed.

Lemma is_percent_round (x : number) :
  (exists y, x = Fin y /\ 0 <= y <= 100) -> is_percent (Math_round x).
Proof.
  intros (y & E & H). subst x. exists (round_half_up y).
  split; [reflexivity | now apply round_percent].
Qed.

Lemma is_percent_zero : is_percent (Fin 0).
Proof. exists 0%Z. split; [reflexivity | lia]. Qed.

(** The clamped normalisations are finite and in [0, 100]. *)

Lemma spec_frequency_range (q : Q) :
  0 <= q -> exists y, spec_frequency (Fin q) = Fin y /\ 0 <= y <= 100.
Proof.
  intro H. unfold spec_frequency. apply min_range.
  rewrite <- linear_frequency_0. apply linear_frequency_mono.
  unfold leb. now qprop.
Qed.

Lemma spec_cfr_range (q : Q) :
  0 <= q -> exists y, spec_cfr (Fin q) = Fin y /\ 0 <= y <= 100.
Proof.
  intro H. unfold spec_cfr. apply max_range.
  rewrite <- linear_cfr_0. apply linear_cfr_anti.
  unfold leb. now qprop.
Qed.

Lemma spec_leadTime_range (q : Q) :
  exists y, spec_leadTime (Fin q) = Fin y /\ 0 <= y <= 100.
Proof.
  unfold spec_leadTime. apply clamp_range.
  apply (leb_left _ (linear_leadTime (Fin q))), linear_leadTime_anti, leb_refl.
  discriminate.
Qed.

Lemma spec_mttr_range (q : Q) :
  exists y, spec_mttr (Fin q) = Fin y /\ 0 <= y <= 100.
Proof.
  unfold spec_mttr. apply clamp_range.
  apply (leb_left _ (linear_mttr (Fin q))), linear_mttr_anti, leb_refl.
  discriminate.
Qed.

(** The four bars are integers in [0, 100]. *)

Lemma freqPct_of_percent (q : Q) : 0 <= q -> is_percent (freqPct_of (Fin q)).
Proof.
  intro H. rewrite freqPct_of_spec. now apply is_percent_round, spec_frequency_range.
Qed.

Lemma cfrPct_of_percent (c : option number) :
  match c with
  | None => True
  | Some r => is_ratio r
  end -> is_percent (cfrPct_of c).
Proof.
  intro H. rewrite cfrPct_of_spec. destruct c as [r|]; [|apply is_percent_zero].
  destruct H as (q & E & Hq). subst r.
  apply is_percent_round, spec_cfr_range. lra.
Qed.

Lemma ltPct_of_percent (o : option number) : opt_nonneg o -> is_percent (ltPct_of o).
Proof.
  intro H. rewrite ltPct_of_spec. destruct o as [l|]; [|apply is_percent_zero].
  destruct H as (q & E & Hq). subst l. apply is_percent_round, spec_leadTime_range.
Qed.

Lemma mttrPct_of_percent (o : option number) : opt_nonneg o -> is_percent (mttrPct_of o).
Proof.
  intro H. rewrite mttrPct_of_spec. destruct o as [h|]; [|apply is_percent_zero].
  destruct H as (q & E & Hq). subst h. apply is_percent_round, spec_mttr_range.
Qed.

End MetricsFacts.

(* ================================================================== *)
(** * Range and monotonicity of the progress bars *)
(* ================================================================== *)

Module Progress.
Import JS DoraQuickCheck Spec JSOrder ProgressFacts CoercionFacts MetricsFacts.

(** C4.  On a coerced input set the change failure rate is null or lies
    in [0, 1], and each of the four progress percentages is an integer in
    [0, 100]: the normalisation of the specification, evaluated in the
    binary64 arithmetic of the code and rounded to the nearest integer
    (frequency [value/30*100] capped at 100; change failure rate
    [(1 - cfr/0.30)*100] floored at 0; lead time [(1 - (days-1)/29)*100]
    and MTTR [(1 - (hours-1)/167)*100] clamped to [0, 100]), and 0 where
    the value is null. *)
Theorem progress_percent_range (st : State) (H : coerced st) :
  let v := validNumbers st in
  let m := metrics v in
  match cfr m with
  | None => True
  | Some c => is_ratio c
  end /\
  is_percent (freqPct m) /\
  is_percent (cfrPct m) /\
  is_percent (ltPct m) /\
  is_percent (mttrPct m) /\
  freqPct m = Math_round (spec_frequency (d v)) /\
  cfrPct m = percent_of spec_cfr (cfr m) /\
  ltPct m = percent_of spec_leadTime (ld v) /\
  mttrPct m = percent_of spec_mttr (mh v).
Proof.
  cbv zeta.
  destruct (validNumbers_coerced st H) as (Hd & _ & _ & _ & Hld & Hmh).
  pose proof (cfr_metrics_ratio st H) as Hc.
  set (v := validNumbers st) in *.
  rewrite cfrPct_metrics, freqPct_metrics, ltPct_metrics, mttrPct_metrics.
  refine (conj Hc (conj _ (conj _ (conj _ (conj _
            (conj (freqPct_of_spec _) (conj (cfrPct_of_spec _)
               (conj (ltPct_of_spec _) (mttrPct_of_spec _))))))))).
  - destruct Hd as (qd & Ed & Hqd). rewrite Ed. now apply freqPct_of_percent.
  - now apply cfrPct_of_percent.
  - now apply ltPct_of_percent.
  - now apply mttrPct_of_percent.
Qed.

Lemma progress_percent_range_witness :
  is_percent (freqPct (metrics (validNumbers initial))) /\
  is_percent (cfrPct (metrics (validNumbers initial))) /\
  is_percent (ltPct (metrics (validNumbers initial))) /\
  is_percent (mttrPct (metrics (validNumbers initial))).
Proof.
  pose proof (progress_percent_range initial initial_coerced) as H.
  cbv zeta in H.
  destruct H as (_ & H1 & H2 & H3 & H4 & _).
  exact (conj H1 (conj H2 (conj H3 H4))).
Defined.

(** The rounding of the arithmetic shows in the bars.  With 80
    deployments and 21 errors the rate is 0.2625 and its bar is at 12,
    while [(1 - 0.2625/0.30)*100] is 12.5 in exact arithmetic, whose
    nearest integer is 13.  With 17.25 deployments the frequency bar is at
    57, while [17.25/30*100] is 57.5 in exact arithmetic. *)
Lemma progress_percent_rounding :
  let st := {| deploys := Num (Fin 80); team := Num (Fin 20); squads := Num (Fin 4);
               errors := Num (Fin 21); leadDays := Num (Fin 3);
               mttrHours := Num (Fin 8) |} in
  let m := metrics (validNumbers st) in
  coerced st /\
  (exists c, cfr m = Some c /\ c =~ literal 0.2625) /\
  cfrPct m = Fin 12 /\
  round_half_up ((1 - 0.2625 / 0.30) * 100) = 13%Z /\
  freqPct_of (Fin 17.25) = Fin 57 /\
  round_half_up (17.25 / 30 * 100) = 58%Z.
Proof.
  cbv zeta. refine (conj _ (conj _ (conj _ (conj _ (conj _ _))))).
  - unfold coerced; simpl. repeat split; lra.
  - eexists. split; [reflexivity|]. vm_compute. reflexivity.
  - vm_compute. reflexivity.
  - vm_compute. reflexivity.
  - vm_compute. reflexivity.
  - vm_compute. reflexivity.
Qed.

(** C5.  The progress percentages are monotone in their argument: for
    [x <= y], the frequency percentage at [x] is at most the one at [y],
    and the change-failure-rate, lead-time and MTTR percentages at [x]
    are at least the ones at [y]. *)
Theorem progress_monotone (x y : number) (H : (x <=? y)%js = true) :
  (freqPct_of x <=? freqPct_of y)%js = true /\
  (cfrPct_of (Some x) >=? cfrPct_of (Some y))%js = true /\
  (ltPct_of (Some x) >=? ltPct_of (Some y))%js = true /\
  (mttrPct_of (Some x) >=? mttrPct_of (Some y))%js = true.
Proof.
  unfold geb. refine (conj _ (conj _ (conj _ _))).
  - unfold freqPct_of.
    apply Math_min_mono, Math_round_mono. exact (linear_frequency_mono _ _ H).
  - unfold cfrPct_of. rewrite <- literal_030.
    apply Math_max_mono, Math_round_mono. exact (linear_cfr_anti _ _ H).
  - unfold ltPct_of.
    apply Math_max_mono, Math_min_mono, Math_round_mono.
    exact (linear_leadTime_anti _ _ H).
  - unfold mttrPct_of. rewrite sub_168_1.
    apply Math_max_mono, Math_min_mono, Math_round_mono.
    exact (linear_mttr_anti _ _ H).
Qed.

Lemma progress_monotone_witness :
  (freqPct_of (Fin 3) <=? freqPct_of (Fin 12))%js = true /\
  (cfrPct_of (Some (Fin 3)) >=? cfrPct_of (Some (Fin 12)))%js = true /\
  (ltPct_of (Some (Fin 3)) >=? ltPct_of (Some (Fin 12)))%js = true /\
  (mttrPct_of (Some (Fin 3)) >=? mttrPct_of (Some (Fin 12)))%js = true.
Proof.
  apply (progress_monotone (Fin 3) (Fin 12)). reflexivity.
Defined.

End Progress.

(* ================================================================== *)
(** * The divisor of perSquad and the coercion policy *)
(* ================================================================== *)

Module Derived.
Import JS DoraQuickCheck Spec JSOrder ProgressFacts CoercionFacts MetricsFacts.

(** The divisor [s] is never 0 or NaN, whatever the state. *)
Lemma divisor_truthy (st : State) : truthy (s (validNumbers st)) = true.
Proof.
  unfold validNumbers; simpl. unfold or.
  destruct (truthy (number_or (squads st) (Fin 1))) eqn:E; [assumption | reflexivity].
Qed.

(** On a coerced input set no derived number is NaN or below 0: the two
    quotients are finite or +Infinity, the rate is null or in [0, 1]. *)
Lemma metrics_defined (st : State) :
  coerced st ->
  let m := metrics (validNumbers st) in
  not_negative (perSquad m) /\ not_negative (perEng m) /\
  match cfr m with
  | None => True
  | Some c => is_ratio c
  end.
Proof.
  intro H. cbv zeta.
  refine (conj _ (conj _ (cfr_metrics_ratio st H))).
  - destruct (validNumbers_coerced st H) as (Hd & _ & Hs & _).
    rewrite perSquad_metrics.
    destruct Hd as (qd & Ed & Hqd). destruct Hs as (qs & Es & Hqs). rewrite Ed, Es.
    now apply div_not_negative.
  - destruct (validNumbers_coerced st H) as (Hd & Ht & _).
    rewrite perEng_metrics.
    destruct Hd as (qd & Ed & Hqd). destruct Ht as (qt & Et & Hqt). rewrite Ed, Et.
    unfold truthy. destruct (Qeq_bool qt 0) eqn:E; cbn [negb]; qprop.
    + reflexivity.
    + apply div_not_negative; [assumption | lra].
Qed.

(** C6, as the code has it.  [perSquad] is [d / s], where the divisor [s]
    is the squad count when that is a number other than 0 and NaN, and 1
    when the field is blank or holds 0; [s] is therefore never 0.  A
    typed squad count that is at most 0 is clamped to 0, so its divisor
    is 1.  On a coerced input set [s] is above 0, [perSquad] is a number
    that is at least 0 (finite, or +Infinity when the quotient
    overflows), and [s] equals [max(squadCount, 1)] whenever the squad
    count is 0 or at least 1. *)
Theorem perSquad_divisor (st : State) :
  let v := validNumbers st in
  let m := metrics v in
  perSquad m = (d v / s v)%js /\
  truthy (s v) = true /\
  match squads st with
  | Blank => s v = Fin 1
  | Num n => s v = if truthy n then n else Fin 1
  end /\
  (forall (ToNumber : string -> number) (text : string),
     (ToNumber text <=? Fin 0)%js = true ->
     s (validNumbers (onChange ToNumber StepSquads text st)) = Fin 1) /\
  (coerced st ->
     positive (s v) /\ not_negative (perSquad m) /\
     forall n, squads st = Num n ->
       n =~ Fin 0 \/ (n >=? Fin 1)%js = true -> s v =~ spec_divisor n).
Proof.
  cbv zeta. refine (conj _ (conj _ (conj _ (conj _ _)))).
  - apply perSquad_metrics.
  - apply divisor_truthy.
  - unfold validNumbers; simpl. destruct (squads st); reflexivity.
  - intros ToNumber text Hle. unfold validNumbers, onChange, coerce; simpl.
    destruct (String.eqb text EmptyString); [reflexivity|].
    simpl. now rewrite (clampNum_nonpositive _ Hle).
  - intro H. refine (conj _ (conj _ _)).
    + apply (validNumbers_coerced st H).
    + apply (metrics_defined st H).
    + intros n En Hn. destruct H as (_ & _ & H3 & _). rewrite En in H3.
      assert (Es : s (validNumbers st) = if truthy n then n else Fin 1).
      { unfold validNumbers; simpl. rewrite En. reflexivity. }
      rewrite Es.
      destruct n as [q | | |]; simpl in H3; try contradiction.
      unfold spec_divisor, truthy. rewrite max_Fin.
      assert (Hq : q == 0 \/ 1 <= q).
      { destruct Hn as [Hz | Hge]; [left; exact Hz | right].
        unfold geb, leb in Hge. now qprop. }
      destruct (Qeq_bool q 0) eqn:E0; destruct (Qle_bool q 1) eqn:E1;
        cbn [negb]; unfold numeq; qprop; destruct Hq; try contradiction; lra.
Qed.

Lemma perSquad_divisor_witness :
  positive (s (validNumbers initial)) /\
  not_negative (perSquad (metrics (validNumbers initial))) /\
  s (validNumbers (onChange (fun _ => Fin (-2)) StepSquads "-2" initial)) = Fin 1.
Proof.
  pose proof (perSquad_divisor initial) as H. cbv zeta in H.
  destruct H as (_ & _ & _ & Hraw & Hco). refine (conj _ (conj _ _)).
  - apply (Hco initial_coerced).
  - apply (Hco initial_coerced).
  - apply Hraw. reflexivity.
Defined.

(** C6 fails as stated: with 12 deployments and a squad count of 0.5 the
    code divides by 0.5 and gives 24, while 12 / max(0.5, 1) is 12. *)
Lemma perSquad_fractional_squads :
  let st := {| deploys := Num (Fin 12); team := Num (Fin 20);
               squads := Num (Fin 0.5); errors := Num (Fin 2);
               leadDays := Num (Fin 3); mttrHours := Num (Fin 8) |} in
  let v := validNumbers st in
  st = onChange (fun _ => Fin 0.5) StepSquads "0.5" initial /\
  coerced st /\
  perSquad (metrics v) =~ Fin 24 /\
  (d v / spec_divisor (Fin 0.5))%js =~ Fin 12 /\
  ~ perSquad (metrics v) =~ (d v / spec_divisor (Fin 0.5))%js.
Proof.
  cbv zeta. refine (conj _ (conj _ (conj _ (conj _ _)))).
  - reflexivity.
  - unfold coerced; simpl. repeat split; lra.
  - vm_compute. reflexivity.
  - vm_compute. reflexivity.
  - intro H. vm_compute in H. discriminate H.
Qed.

(** The divisor is never 0, but [perSquad] need not be finite: with 12
    deployments and a squad count of 2^-1074 (the text 5e-324) the
    quotient overflows to +Infinity. *)
Lemma perSquad_overflow :
  let tiny := Fin (1 # 2 ^ 1074) in
  let st := onChange (fun _ => tiny) StepSquads "5e-324" initial in
  coerced st /\
  squads st = Num tiny /\
  s (validNumbers st) = tiny /\
  perSquad (metrics (validNumbers st)) = PosInf.
Proof.
  cbv zeta. refine (conj _ (conj _ (conj _ _))).
  - apply (reachable_coerced (fun _ => Fin (1 # 2 ^ 1074))).
    apply reach_change, reach_initial.
  - vm_compute. reflexivity.
  - vm_compute. reflexivity.
  - vm_compute. reflexivity.
Qed.




End Derived.

(* ================================================================== *)
(** * The report-export handler *)
(* ================================================================== *)

Module HandlerFacts.
Import JS DoraQuickCheck SendResults Spec.
Local Open Scope string_scope.

Section Host.
Variable NumberToString : number -> string.
Variable StringToNumber : string -> number.
Variable toFixed : number -> nat -> string.
Variable toUpperCase : string -> string.
Variable now_text now_html : string.

Abbreviation ToString := (SendResults.ToString NumberToString).
Abbreviation show := (SendResults.show NumberToString).
Abbreviation show_cfr := (SendResults.show_cfr NumberToString StringToNumber).
Abbreviation show_or_NA := (SendResults.show_or_NA NumberToString).
Abbreviation show_fixed := (SendResults.show_fixed toFixed).
Abbreviation show_upper := (SendResults.show_upper toUpperCase).
Abbreviation resultsText :=
  (SendResults.resultsText NumberToString StringToNumber toFixed now_text).
Abbreviation resultsHtml :=
  (SendResults.resultsHtml NumberToString StringToNumber toFixed toUpperCase now_html).
Abbreviation try_block :=
  (SendResults.try_block NumberToString StringToNumber toFixed toUpperCase
     now_text now_html).
Abbreviation POST :=
  (SendResults.POST NumberToString StringToNumber toFixed toUpperCase
     now_text now_html).

(** Inverts a successful sequence of steps, one [bind] at a time. *)
Ltac invert_binds H :=
  repeat match type of H with
  | bind ?c _ = inr _ =>
      let E := fresh "E" in
      destruct c eqn:E; cbn [bind] in H; [discriminate H|]
  end.

(** A text report that is produced is the text template filled with the
    values of the interpolated expressions. *)
Lemma resultsText_cells (email results metrics : Value) (report : string) :
  resultsText email results metrics = inr report ->
  exists c, report = text_template c /\
    show_cfr metrics = inr (c_cfr c) /\
    show_or_NA results "leadDays" = inr (c_leadDays c) /\
    show_or_NA results "mttrHours" = inr (c_mttrHours c).
Proof.
  unfold SendResults.resultsText. intro H. invert_binds H.
  injection H as H. subst report.
  eexists. split; [reflexivity|]. cbn [c_cfr c_leadDays c_mttrHours].
  repeat split; reflexivity.
Qed.

(** The same for the HTML report. *)
Lemma resultsHtml_cells (email results metrics : Value) (report : string) :
  resultsHtml email results metrics = inr report ->
  exists c u, report = html_template c u /\
    show_cfr metrics = inr (c_cfr c) /\
    show_or_NA results "leadDays" = inr (c_leadDays c) /\
    show_or_NA results "mttrHours" = inr (c_mttrHours c).
Proof.
  unfold SendResults.resultsHtml. intro H. invert_binds H.
  injection H as H. subst report.
  eexists. eexists. split; [reflexivity|]. cbn [c_cfr c_leadDays c_mttrHours].
  repeat split; reflexivity.
Qed.

Lemma show_cfr_zero (metrics : Value) :
  is_zero (get metrics "cfr") -> show_cfr metrics = ret "N/A".
Proof.
  intros (n & E & Hn). unfold SendResults.show_cfr. rewrite E. cbn [bind ToBoolean].
  destruct n as [q | | |]; try (exfalso; exact Hn).
  change (q == 0) in Hn. unfold truthy. apply Qeq_bool_iff in Hn. now rewrite Hn.
Qed.

Lemma show_or_NA_zero (results : Value) (k : string) :
  is_zero (get results k) -> show_or_NA results k = ret "N/A".
Proof.
  intros (n & E & Hn). unfold SendResults.show_or_NA. rewrite E.
  cbn [bind]. unfold or_else, ToBoolean.
  destruct n as [q | | |]; try (exfalso; exact Hn).
  change (q == 0) in Hn. unfold truthy. apply Qeq_bool_iff in Hn. now rewrite Hn.
Qed.

Lemma show_fixed_not_number (metrics : Value) (k : string) (digits : nat) :
  (forall n, get metrics k <> inr (VNumber n)) ->
  exists x, show_fixed metrics k digits = inl x.
Proof.
  intro Hn. unfold SendResults.show_fixed.
  destruct (get metrics k) as [x | v] eqn:E; cbn [bind].
  - now exists x.
  - destruct v; try (now exists TypeError).
    exfalso. now apply (Hn n).
Qed.

(** No text report is produced when [metrics.perSquad] is not a number. *)
Lemma resultsText_malformed (email results metrics : Value) :
  (forall n, get metrics "perSquad" <> inr (VNumber n)) ->
  exists x, resultsText email results metrics = inl x.
Proof.
  intro Hn. unfold SendResults.resultsText.
  destruct (ToString email) as [x | ?]; cbn [bind]; [now exists x|].
  destruct (show metrics "freqT") as [x | ?]; cbn [bind]; [now exists x|].
  destruct (show results "deploys") as [x | ?]; cbn [bind]; [now exists x|].
  destruct (show_fixed_not_number metrics "perSquad" 1 Hn) as (x & E).
  rewrite E. now exists x.
Qed.

(** C9.  The handler never lets an exception out: for every request it
    returns a response.  Whatever the [try] block throws (a body that does
    not parse, or an error while the reports are formatted) is answered
    with status 500 and the error body, and logged; otherwise the answer
    of the [try] block, of status 200, is returned.  In particular
    metrics whose [perSquad] is not a number are answered with status
    500. *)
Theorem POST_fails_closed (request : NextRequest) :
  exists outcome,
    POST request = inr outcome /\
    (forall error, try_block request = inl error ->
       outcome =
       {| response :=
            NextResponse_json (VObject [("error", VString "Failed to send email")]) 500;
          console := [console_error error] |}) /\
    (forall ok, try_block request = inr ok ->
       outcome = ok /\ status (response ok) = 200%nat) /\
    (forall b email results metrics,
       json request = inr b ->
       get b "email" = inr email ->
       get b "results" = inr results ->
       get b "metrics" = inr metrics ->
       (forall n, get metrics "perSquad" <> inr (VNumber n)) ->
       status (response outcome) = 500%nat).
Proof.
  unfold SendResults.POST, try_catch.
  destruct (try_block request) as [x | ok] eqn:E.
  - eexists. split; [reflexivity|]. refine (conj _ (conj _ _)).
    + intros error Herr. injection Herr as <-. reflexivity.
    + intros ok Hok. discriminate Hok.
    + intros; reflexivity.
  - exists ok. split; [reflexivity|]. refine (conj _ (conj _ _)).
    + intros error Herr. discriminate Herr.
    + intros ok' Hok. injection Hok as <-. split; [reflexivity|].
      unfold SendResults.try_block in E.
      repeat match type of E with
      | bind ?c _ = inr _ =>
          destruct c; cbn [bind] in E; [discriminate E|]
      end.
      injection E as <-. reflexivity.
    + intros b email results metrics Hb He Hr Hm Hn. exfalso.
      unfold SendResults.try_block in E.
      rewrite Hb in E. cbn [bind] in E.
      rewrite He in E. cbn [bind] in E.
      rewrite Hr in E. cbn [bind] in E.
      rewrite Hm in E. cbn [bind] in E.
      destruct (resultsText_malformed email results metrics Hn) as (x & Ex).
      rewrite Ex in E. discriminate E.
Qed.

(** The lines of the two reports. *)

Lemma append_assoc (a b c : string) : (a ++ b) ++ c = a ++ (b ++ c).
Proof. induction a as [| x a IH]; simpl; [reflexivity | now rewrite IH]. Qed.

Lemma unlines_cons (a : string) (rest : list string) :
  unlines (a :: rest) = a ++ nl ++ unlines rest.
Proof. reflexivity. Qed.

Lemma line_of_unlines (l : string) (ls : list string) :
  In l ls -> line_of l (nl ++ unlines ls).
Proof.
  unfold line_of, occurs_in. induction ls as [| a rest IH]; intro H; [contradiction|].
  rewrite unlines_cons. destruct H as [-> | H].
  - exists EmptyString, (unlines rest). rewrite !append_assoc. reflexivity.
  - destruct (IH H) as (before & after & E).
    exists ((nl ++ a) ++ before), after.
    rewrite !append_assoc in E. rewrite !append_assoc. now rewrite <- E.
Qed.

(** Finds a line in the list of lines of a template. *)
Ltac in_lines :=
  cbn [List.concat app map In html_style recommendations];
  repeat first [left; reflexivity | right].

Lemma text_template_lines (c : Cells) :
  line_of ("CFR: " ++ c_cfr c) (text_template c) /\
  line_of ("Lead time (days): " ++ c_leadDays c) (text_template c) /\
  line_of ("MTTR (hours): " ++ c_mttrHours c) (text_template c).
Proof.
  unfold text_template.
  refine (conj _ (conj _ _)); apply line_of_unlines; in_lines.
Qed.

Lemma html_template_lines (c : Cells) (u : Upper) :
  line_of (labelled ind8 "CFR:" (c_cfr c)) (html_template c u) /\
  line_of (labelled ind8 "Lead time (days):" (c_leadDays c)) (html_template c u) /\
  line_of (labelled ind8 "MTTR (hours):" (c_mttrHours c)) (html_template c u).
Proof.
  unfold html_template.
  refine (conj _ (conj _ _)); apply line_of_unlines; in_lines.
Qed.

(** C10.  A change failure rate of 0, a lead time of 0 and an MTTR of 0
    are each rendered as N/A: the interpolated expression evaluates to
    N/A, every text report the handler builds has the line [CFR: N/A]
    ([Lead time (days): N/A], [MTTR (hours): N/A]), and every HTML report
    it builds has the paragraph that shows N/A for that value.  The
    classifiers treat the same 0 as a value, which they rank elite. *)
Theorem zero_rendered_as_NA (email results metrics : Value) :
  (is_zero (get metrics "cfr") ->
     show_cfr metrics = ret "N/A" /\
     (forall report, resultsText email results metrics = inr report ->
        line_of "CFR: N/A" report) /\
     (forall report, resultsHtml email results metrics = inr report ->
        line_of "        <p>CFR: <strong>N/A</strong></p>" report)) /\
  (is_zero (get results "leadDays") ->
     show_or_NA results "leadDays" = ret "N/A" /\
     (forall report, resultsText email results metrics = inr report ->
        line_of "Lead time (days): N/A" report) /\
     (forall report, resultsHtml email results metrics = inr report ->
        line_of "        <p>Lead time (days): <strong>N/A</strong></p>" report)) /\
  (is_zero (get results "mttrHours") ->
     show_or_NA results "mttrHours" = ret "N/A" /\
     (forall report, resultsText email results metrics = inr report ->
        line_of "MTTR (hours): N/A" report) /\
     (forall report, resultsHtml email results metrics = inr report ->
        line_of "        <p>MTTR (hours): <strong>N/A</strong></p>" report)) /\
  cfrTier (Some (Fin 0)) = elite /\
  leadTier (Some (Fin 0)) = elite /\
  mttrTier (Some (Fin 0)) = elite.
Proof.
  refine (conj _ (conj _ (conj _ (conj eq_refl (conj eq_refl eq_refl))))).
  - intro Hz. pose proof (show_cfr_zero metrics Hz) as Hs.
    refine (conj Hs (conj _ _)); intros report Hr.
    + destruct (resultsText_cells _ _ _ _ Hr) as (c & Ec & H1 & _ & _).
      rewrite Hs in H1. injection H1 as H1. subst report.
      pose proof (proj1 (text_template_lines c)) as L.
      rewrite <- H1 in L. exact L.
    + destruct (resultsHtml_cells _ _ _ _ Hr) as (c & u & Ec & H1 & _ & _).
      rewrite Hs in H1. injection H1 as H1. subst report.
      pose proof (proj1 (html_template_lines c u)) as L.
      rewrite <- H1 in L. exact L.
  - intro Hz. pose proof (show_or_NA_zero results "leadDays" Hz) as Hs.
    refine (conj Hs (conj _ _)); intros report Hr.
    + destruct (resultsText_cells _ _ _ _ Hr) as (c & Ec & _ & H1 & _).
      rewrite Hs in H1. injection H1 as H1. subst report.
      pose proof (proj1 (proj2 (text_template_lines c))) as L.
      rewrite <- H1 in L. exact L.
    + destruct (resultsHtml_cells _ _ _ _ Hr) as (c & u & Ec & _ & H1 & _).
      rewrite Hs in H1. injection H1 as H1. subst report.
      pose proof (proj1 (proj2 (html_template_lines c u))) as L.
      rewrite <- H1 in L. exact L.
  - intro Hz. pose proof (show_or_NA_zero results "mttrHours" Hz) as Hs.
    refine (conj Hs (conj _ _)); intros report Hr.
    + destruct (resultsText_cells _ _ _ _ Hr) as (c & Ec & _ & _ & H1).
      rewrite Hs in H1. injection H1 as H1. subst report.
      pose proof (proj2 (proj2 (text_template_lines c))) as L.
      rewrite <- H1 in L. exact L.
    + destruct (resultsHtml_cells _ _ _ _ Hr) as (c & u & Ec & _ & _ & H1).
      rewrite Hs in H1. injection H1 as H1. subst report.
      pose proof (proj2 (proj2 (html_template_lines c u))) as L.
      rewrite <- H1 in L. exact L.
Qed.

End Host.
End HandlerFacts.

Module HandlerWitnesses.
Import JS DoraQuickCheck SendResults Spec HandlerFacts.
Local Open Scope string_scope.

Lemma POST_fails_closed_witness :
  (exists outcome,
     example_POST malformed_request = inr outcome /\
     status (response outcome) = 500%nat) /\
  (exists outcome,
     example_POST example_request = inr outcome /\
     status (response outcome) = 200%nat).
Proof.
  split.
  - destruct (POST_fails_closed (fun _ => "0") (fun _ => NaN) (fun _ _ => "0")
                (fun s => s) "now" "now" malformed_request)
      as (outcome & Hpost & _ & _ & Hmalformed).
    exists outcome. split; [exact Hpost|].
    apply (Hmalformed _ example_email example_results (VObject []) eq_refl);
      try reflexivity.
    intros n Hn. discriminate Hn.
  - destruct (POST_fails_closed (fun _ => "0") (fun _ => NaN) (fun _ _ => "0")
                (fun s => s) "now" "now" example_request)
      as (outcome & Hpost & _ & Hok & _).
    exists outcome. split; [exact Hpost|].
    assert (Htry : exists ok,
               SendResults.try_block (fun _ => "0") (fun _ => NaN) (fun _ _ => "0")
                 (fun s => s) "now" "now" example_request = inr ok)
      by (eexists; reflexivity).
    destruct Htry as (ok & Htry).
    destruct (Hok ok Htry) as [E H200]. rewrite E. exact H200.
Defined.

Lemma zero_rendered_as_NA_witness :
  line_of "CFR: N/A" (report_of example_resultsText) /\
  line_of "        <p>Lead time (days): <strong>N/A</strong></p>"
    (report_of example_resultsHtml) /\
  show_or_NA (fun _ => "0") example_results "mttrHours" = ret "N/A".
Proof.
  pose proof (zero_rendered_as_NA (fun _ => "0") (fun _ => NaN) (fun _ _ => "0")
                (fun s => s) "now" "now" example_email example_results
                example_metrics) as (Hcfr & Hlead & Hmttr & _).
  refine (conj _ (conj _ _)).
  - apply Hcfr.
    + exists (Fin 0). split; reflexivity.
    + reflexivity.
  - apply Hlead.
    + exists (Fin 0). split; reflexivity.
    + reflexivity.
  - apply Hmttr. exists (Fin 0). split; reflexivity.
Defined.

End HandlerWitnesses.

(* ================================================================== *)
(** * Further properties of the classifiers and of clampNum *)
(* ================================================================== *)

Module ClassifierProperties.
Import JS DoraQuickCheck Spec Vocabulary JSOrder CoercionFacts.

(** X1.  [mttrTier] sends null to n/a, an MTTR of at most 1 hour to
    elite, one in (1, 24] to high, one in (24, 168] to medium and one
    above 168 to low; 1, 24, 168 and 169 fall in elite, high, medium and
    low. *)
Theorem mttrTier_bands (hours : number) :
  mttrTier None = na /\
  ((hours <=? Fin 1)%js = true -> mttrTier (Some hours) = elite) /\
  ((hours >? Fin 1)%js = true -> (hours <=? Fin 24)%js = true ->
     mttrTier (Some hours) = high) /\
  ((hours >? Fin 24)%js = true -> (hours <=? Fin 168)%js = true ->
     mttrTier (Some hours) = medium) /\
  ((hours >? Fin 168)%js = true -> mttrTier (Some hours) = low) /\
  mttrTier (Some (Fin 1)) = elite /\
  mttrTier (Some (Fin 24)) = high /\
  mttrTier (Some (Fin 168)) = medium /\
  mttrTier (Some (Fin 169)) = low.
Proof.
  repeat split; try reflexivity.
  - intro H. simpl. now rewrite H.
  - intros H1 H2. destruct hours; simpl in *; try discriminate.
    qcases; qprop; try lra; reflexivity.
  - intros H1 H2. destruct hours; simpl in *; try discriminate.
    qcases; qprop; try lra; reflexivity.
  - intro H. destruct hours; simpl in *; try discriminate; try reflexivity.
    qcases; qprop; try lra; reflexivity.
Qed.

Lemma mttrTier_bands_witness :
  mttrTier (Some (Fin 0.5)) = elite /\
  mttrTier (Some (Fin 8)) = high /\
  mttrTier (Some (Fin 100)) = medium /\
  mttrTier (Some (Fin 500)) = low.
Proof.
  refine (conj _ (conj _ (conj _ _))).
  - apply (mttrTier_bands (Fin 0.5)); reflexivity.
  - apply (mttrTier_bands (Fin 8)); reflexivity.
  - apply (mttrTier_bands (Fin 100)); reflexivity.
  - apply (mttrTier_bands (Fin 500)); reflexivity.
Defined.

(** Settles a comparison of two ranks once every test is decided. *)
Ltac rank_cases :=
  qcases; qprop; cbv [rank]; first [lia | exfalso; lra].

(** X2.  The classifiers are monotone: a higher deployment frequency
    never gets a worse tier, and a higher change failure rate, lead time
    or MTTR never gets a better one. *)
Theorem tiers_monotone (x y : number) (H : (x <=? y)%js = true) :
  (rank (freqTier x) <= rank (freqTier y))%nat /\
  (rank (cfrTier (Some y)) <= rank (cfrTier (Some x)))%nat /\
  (rank (leadTier (Some y)) <= rank (leadTier (Some x)))%nat /\
  (rank (mttrTier (Some y)) <= rank (mttrTier (Some x)))%nat.
Proof.
  destruct x as [a | | |], y as [b | | |]; try discriminate H;
    unfold leb in H; qprop;
    unfold freqTier, cfrTier, leadTier, mttrTier; rewrite mul_24_7;
    unfold geb, gtb, leb, ltb;
    cbn [minPerMonth DORA_FREQ.elite DORA_FREQ.high DORA_FREQ.medium];
    (refine (conj _ (conj _ (conj _ _))); rank_cases).
Qed.

Lemma tiers_monotone_witness :
  (rank (freqTier (Fin 3)) <= rank (freqTier (Fin 40)))%nat /\
  (rank (cfrTier (Some (Fin 40))) <= rank (cfrTier (Some (Fin 3))))%nat /\
  (rank (leadTier (Some (Fin 40))) <= rank (leadTier (Some (Fin 3))))%nat /\
  (rank (mttrTier (Some (Fin 40))) <= rank (mttrTier (Some (Fin 3))))%nat.
Proof.
  apply (tiers_monotone (Fin 3) (Fin 40)). reflexivity.
Defined.

(** X3.  [clampNum] returns a finite number between 0 and
    [Number.MAX_SAFE_INTEGER]; it returns 0 on NaN and on both
    infinities, leaves every number that is already in range unchanged,
    is idempotent, and is monotone on finite numbers (not beyond:
    +Infinity is sent to 0, below every positive result). *)
Theorem clampNum_clamps (v : number) :
  (exists q, clampNum v = Fin q /\ 0 <= q <= 9007199254740991) /\
  (isFinite v = false -> clampNum v = Fin 0) /\
  (forall q, v = Fin q -> 0 <= q <= 9007199254740991 -> clampNum v =~ v) /\
  clampNum (clampNum v) = clampNum v /\
  (forall a b, v = Fin a -> (a <= b)%Q ->
     (clampNum v <=? clampNum (Fin b))%js = true) /\
  (clampNum (Fin 5) <=? clampNum PosInf)%js = false.
Proof.
  refine (conj _ (conj _ (conj _ (conj _ (conj _ _))))).
  - destruct v as [q | | |];
      try (exists 0; split; [reflexivity | lra]).
    rewrite clampNum_Fin.
    destruct (Qle_bool q 0) eqn:E0; [exists 0; split; [reflexivity | lra]|].
    destruct (Qle_bool q 9007199254740991) eqn:E1; qprop.
    + exists q. split; [reflexivity | lra].
    + exists 9007199254740991. split; [reflexivity | lra].
  - apply clampNum_not_finite.
  - intros q -> [H0 H1]. rewrite clampNum_Fin.
    destruct (Qle_bool q 0) eqn:E0; [|destruct (Qle_bool q 9007199254740991) eqn:E1];
      qprop; unfold numeq; lra.
  - destruct v as [q | | |]; try reflexivity.
    rewrite clampNum_Fin.
    destruct (Qle_bool q 0) eqn:E0; [reflexivity|].
    destruct (Qle_bool q 9007199254740991) eqn:E1.
    + rewrite clampNum_Fin. now rewrite E0, E1.
    + reflexivity.
  - intros a b -> Hab. rewrite !clampNum_Fin. unfold leb.
    destruct (Qle_bool a 0) eqn:Ea0; destruct (Qle_bool b 0) eqn:Eb0;
      destruct (Qle_bool a 9007199254740991) eqn:Ea1;
      destruct (Qle_bool b 9007199254740991) eqn:Eb1;
      qprop; lra.
  - reflexivity.
Qed.

Lemma clampNum_clamps_witness :
  clampNum NaN = Fin 0 /\
  clampNum (Fin 7.5) =~ Fin 7.5 /\
  (clampNum (Fin (-4)) <=? clampNum (Fin 3))%js = true.
Proof.
  refine (conj _ (conj _ _)).
  - apply (proj1 (proj2 (clampNum_clamps NaN))). reflexivity.
  - apply (proj1 (proj2 (proj2 (clampNum_clamps (Fin 7.5)))) 7.5 eq_refl).
    split; discriminate.
  - apply (proj1 (proj2 (proj2 (proj2 (proj2 (clampNum_clamps (Fin (-4)))))))
             (-4) 3 eq_refl).
    discriminate.
Defined.

End ClassifierProperties.

(* ================================================================== *)
(** * Further properties of the component *)
(* ================================================================== *)

Module ComponentProperties.
Import JS DoraQuickCheck DoraQuickCheckUI Spec Vocabulary JSOrder ProgressFacts
  CoercionFacts MetricsFacts.

Lemma coerce_bounded (ToNumber : string -> number) (v : string) :
  bounded_field (coerce ToNumber v).
Proof.
  unfold coerce. destruct (String.eqb v EmptyString); [exact I|].
  destruct (clampNum_bounds (ToNumber v)) as (q & E & Hq). rewrite E. exact Hq.
Qed.

Lemma onChange_bounded (ToNumber : string -> number) (i : Step) (v : string)
    (st : State) :
  bounded st -> bounded (onChange ToNumber i v st).
Proof.
  intros (H1 & H2 & H3 & H4 & H5 & H6).
  pose proof (coerce_bounded ToNumber v) as Hc.
  destruct i; unfold bounded; simpl; tauto.
Qed.

Lemma steps_at_in_range (k : Z) :
  (0 <= k < steps_length)%Z -> exists i, steps_at k = Some i.
Proof.
  intros [H0 H1]. unfold steps_at.
  destruct (k <? 0)%Z eqn:E; [apply Z.ltb_lt in E; lia|].
  destruct (nth_error steps (Z.to_nat k)) as [i|] eqn:En; [now exists i|].
  apply nth_error_None in En. unfold steps_length in H1. lia.
Qed.

(** X4.  Whatever the user clicks and types, the wizard position stays
    between 0 and [steps.length], every input stays blank or a finite
    number between 0 and [Number.MAX_SAFE_INTEGER], and whenever the
    question card is shown [steps[step]] is an entry of [steps]; an input
    event on the card is therefore always handled. *)
Theorem component_invariant (ToNumber : string -> number) (c : Component) :
  run ToNumber c ->
  (0 <= step c <= steps_length)%Z /\
  bounded (inputs c) /\
  (atLast (step c) = false ->
     (exists i, steps_at (step c) = Some i) /\
     forall v, exists c', dispatch ToNumber (Change v) c = Some c').
Proof.
  intro Hrun.
  assert (Hinv : (0 <= step c <= steps_length)%Z /\ bounded (inputs c)).
  { induction Hrun as [| ev c c' Hrun [IHs IHb] Hd].
    - split; [unfold steps_length; simpl; lia|].
      unfold bounded, mount, initial; simpl. repeat split; lra.
    - destruct ev as [b | v]; unfold dispatch in Hd.
      + destruct (enabled b (step c)) eqn:En; [|discriminate Hd].
        injection Hd as <-. simpl. split; [|exact IHb].
        unfold enabled, atLast in En.
        destruct b; simpl;
          repeat match type of En with
          | (_ && _)%bool = true => apply andb_prop in En; destruct En as [En ?]
          end;
          try apply negb_true_iff in En;
          try apply Z.leb_gt in En; try apply Z.leb_le in En; lia.
      + destruct (atLast (step c)); [discriminate Hd|].
        destruct (steps_at (step c)) as [i|]; [|discriminate Hd].
        injection Hd as <-. simpl. split; [exact IHs|].
        now apply onChange_bounded. }
  destruct Hinv as [Hs Hb]. refine (conj Hs (conj Hb _)).
  intro Hlast. unfold atLast in Hlast. apply Z.leb_gt in Hlast.
  destruct (steps_at_in_range (step c)) as (i & Ei); [lia|].
  split; [now exists i|].
  intro v. unfold dispatch, atLast.
  apply Z.leb_gt in Hlast. rewrite Hlast, Ei. eauto.
Qed.

Lemma component_invariant_witness :
  let c := {| step := 1%Z; inputs := initial |} in
  (0 <= step c <= steps_length)%Z /\ bounded (inputs c).
Proof.
  cbv zeta.
  assert (Hrun : run (fun _ => NaN) {| step := 1%Z; inputs := initial |}).
  { apply (run_event (fun _ => NaN) (Click CardNext) mount).
    - apply run_mount.
    - reflexivity. }
  destruct (component_invariant (fun _ => NaN) _ Hrun) as (Hs & Hb & _).
  exact (conj Hs Hb).
Defined.

Lemma leadTier_Some_not_na (x : number) : leadTier (Some x) <> na.
Proof.
  unfold leadTier.
  destruct (x <=? Fin 1)%js; [discriminate|].
  destruct (x <=? Fin 7)%js; [discriminate|].
  destruct (x <=? Fin 30)%js; discriminate.
Qed.

Lemma mttrTier_Some_not_na (x : number) : mttrTier (Some x) <> na.
Proof.
  unfold mttrTier.
  destruct (x <=? Fin 1)%js; [discriminate|].
  destruct (x <=? Fin 24)%js; [discriminate|].
  destruct (x <=? Fin 24 * Fin 7)%js; discriminate.
Qed.

Lemma cfrTier_Some_not_na (x : number) : cfrTier (Some x) <> na.
Proof.
  unfold cfrTier.
  destruct (x <=? Fin 0.15)%js; [discriminate|].
  destruct (x <=? Fin 0.3)%js; discriminate.
Qed.

(** X5.  The lead-time tier is n/a exactly when the lead-time field is
    blank, the MTTR tier exactly when the MTTR field is blank, and the
    change-failure tier exactly when the rate is null.  On a coerced
    input set the frequency tier is n/a exactly when there are no
    deployments, which is also exactly when the rate is null. *)
Theorem na_tiers (st : State) :
  let v := validNumbers st in
  let m := metrics v in
  (ltT m = na <-> leadDays st = Blank) /\
  (mttrT m = na <-> mttrHours st = Blank) /\
  (cfrT m = na <-> cfr m = None) /\
  (coerced st ->
     (freq m = na <-> d v =~ Fin 0) /\ (cfr m = None <-> d v =~ Fin 0)).
Proof.
  cbv zeta. set (v := validNumbers st).
  destruct (tiers_metrics v) as (Ef & Ec & El & Em).
  rewrite Ef, Ec, El, Em.
  refine (conj _ (conj _ (conj _ _))).
  - unfold v, validNumbers; simpl. destruct (leadDays st) as [|n]; simpl.
    + split; reflexivity.
    + split; [intro H; now apply leadTier_Some_not_na in H | discriminate].
  - unfold v, validNumbers; simpl. destruct (mttrHours st) as [|n]; simpl.
    + split; reflexivity.
    + split; [intro H; now apply mttrTier_Some_not_na in H | discriminate].
  - destruct (cfr (metrics v)) as [c|].
    + split; [intro H; now apply cfrTier_Some_not_na in H | discriminate].
    + split; reflexivity.
  - intro H. destruct (validNumbers_coerced st H) as ((qd & Ed & Hqd) & _).
    fold v in Ed. rewrite cfr_metrics, Ed. split.
    + unfold freqTier, geb, gtb, leb, ltb, numeq.
      cbn [minPerMonth DORA_FREQ.elite DORA_FREQ.high DORA_FREQ.medium].
      qcases; qprop; split; intro Hx; try discriminate Hx; try reflexivity; lra.
    + unfold gtb, ltb, numeq.
      qcases; qprop; split; intro Hx; try discriminate Hx; try reflexivity; lra.
Qed.

Lemma na_tiers_witness :
  let st := {| deploys := Num (Fin 0); team := Num (Fin 20); squads := Num (Fin 4);
               errors := Num (Fin 2); leadDays := Blank; mttrHours := Num (Fin 8) |} in
  freq (metrics (validNumbers st)) = na /\ cfr (metrics (validNumbers st)) = None.
Proof.
  cbv zeta.
  pose proof (na_tiers {| deploys := Num (Fin 0); team := Num (Fin 20);
                          squads := Num (Fin 4); errors := Num (Fin 2);
                          leadDays := Blank; mttrHours := Num (Fin 8) |}) as H.
  cbv zeta in H. destruct H as (_ & _ & _ & H).
  assert (Hc : coerced {| deploys := Num (Fin 0); team := Num (Fin 20);
                          squads := Num (Fin 4); errors := Num (Fin 2);
                          leadDays := Blank; mttrHours := Num (Fin 8) |}).
  { unfold coerced; simpl. repeat split; lra. }
  destruct (H Hc) as [H1 H2]. split.
  - apply H1. reflexivity.
  - apply H2. reflexivity.
Defined.

(** X6.  With deployments, the change failure rate is capped at 1: as
    soon as the errors reach the deployments the rate is 1, its tier is
    low and its bar is at 0.  With no errors the rate is 0, its tier is
    elite and its bar is at 100. *)
Theorem cfr_extremes (v : ValidNumbers) (qd qe : Q) :
  d v = Fin qd -> e v = Fin qe -> 0 < qd ->
  let m := metrics v in
  (qd <= qe -> cfr m = Some (Fin 1) /\ cfrT m = low /\ cfrPct m = Fin 0) /\
  (qe == 0 ->
     exists c, cfr m = Some c /\ c =~ Fin 0 /\ cfrT m = elite /\ cfrPct m = Fin 100).
Proof.
  intros Ed Ee Hd. cbv zeta.
  destruct (tiers_metrics v) as (_ & Ec & _).
  rewrite Ec, cfrPct_metrics, cfr_metrics, Ed, Ee.
  assert (Hgt : (Fin qd >? Fin 0)%js = true) by (unfold gtb, ltb; now qprop).
  rewrite Hgt, div_Fin by lra.
  split.
  - intro Hle.
    assert (H1 : (round64 1 <=? round64 (qe / qd))%js = true).
    { apply Binary64.round64_mono. apply Qle_shift_div_l; [assumption | lra]. }
    rewrite Binary64.round64_1 in H1. rewrite (min_absorb _ _ H1).
    refine (conj eq_refl (conj _ _)); vm_compute; reflexivity.
  - intro Hz.
    assert (Hq : qe / qd == 0) by (rewrite Hz; unfold Qdiv; ring).
    rewrite (Binary64.round64_comp _ _ Hq).
    exists (Fin 0). refine (conj _ (conj _ (conj _ _))); vm_compute; reflexivity.
Qed.

Lemma cfr_extremes_witness :
  let v := {| d := Fin 4; t := Fin 20; s := Fin 4; e := Fin 9; ld := None; mh := None |} in
  cfr (metrics v) = Some (Fin 1) /\ cfrT (metrics v) = low /\ cfrPct (metrics v) = Fin 0.
Proof.
  cbv zeta.
  apply (cfr_extremes {| d := Fin 4; t := Fin 20; s := Fin 4; e := Fin 9;
                         ld := None; mh := None |} 4 9 eq_refl eq_refl);
    first [reflexivity | discriminate].
Defined.





(** The same at the binary64 number that the literal 0.3 denotes, which
    is below the decimal 0.3. *)
Lemma cfr_bar_at_literal (x : number) :
  (x >=? literal 0.3)%js = true -> cfrPct_of (Some x) = Fin 0.
Proof.
  unfold geb. rewrite literal_03. intro H.
  pose proof (Math_round_mono _ _ (linear_cfr_anti _ _ H)) as Hm.
  assert (E : linear_cfr (Fin (5404319552844595 # 18014398509481984)) = Fin 0)
    by (vm_compute; reflexivity).
  rewrite E in Hm.
  unfold cfrPct_of. rewrite <- literal_030. apply max_round_absorb. exact Hm.
Qed.



(** X8.  Each of the four advisory texts of the results card is empty
    exactly when the tier of its metric is n/a; every other tier gets a
    text. *)
Theorem advice_empty_iff_na (NumberToString : number -> string) (v : ValidNumbers) :
  let m := metrics v in
  (freq_advice NumberToString v m = EmptyString <-> freq m = na) /\
  (cfr_advice NumberToString m = EmptyString <-> cfrT m = na) /\
  (lead_advice NumberToString v m = EmptyString <-> ltT m = na) /\
  (mttr_advice NumberToString v m = EmptyString <-> mttrT m = na).
Proof.
  cbv zeta. destruct (tiers_metrics v) as (Ef & Ec & El & Em).
  unfold freq_advice, cfr_advice, lead_advice, mttr_advice.
  rewrite Ef, Ec, El, Em.
  refine (conj _ (conj _ (conj _ _))).
  - destruct (freqTier (d v)); simpl; split; intro H;
      try discriminate H; reflexivity.
  - destruct (cfr (metrics v)) as [c|]; [|split; reflexivity].
    unfold cfrTier.
    destruct (c <=? Fin 0.15)%js; [simpl; split; intro H; discriminate H|].
    destruct (c <=? Fin 0.3)%js; simpl; split; intro H; discriminate H.
  - destruct (ld v) as [l|]; [|split; reflexivity].
    unfold leadTier.
    destruct (l <=? Fin 1)%js; [simpl; split; intro H; discriminate H|].
    destruct (l <=? Fin 7)%js; [simpl; split; intro H; discriminate H|].
    destruct (l <=? Fin 30)%js; simpl; split; intro H; discriminate H.
  - destruct (mh v) as [h|]; [|split; reflexivity].
    unfold mttrTier.
    destruct (h <=? Fin 1)%js; [simpl; split; intro H; discriminate H|].
    destruct (h <=? Fin 24)%js; [simpl; split; intro H; discriminate H|].
    destruct (h <=? Fin 24 * Fin 7)%js; simpl; split; intro H; discriminate H.
Qed.

Lemma advice_empty_iff_na_witness :
  let v := {| d := Fin 0; t := Fin 20; s := Fin 4; e := Fin 2; ld := None; mh := None |} in
  freq_advice (fun _ => "0"%string) v (metrics v) = EmptyString /\
  lead_advice (fun _ => "0"%string) v (metrics v) = EmptyString.
Proof.
  cbv zeta.
  pose proof (advice_empty_iff_na (fun _ => "0"%string)
                {| d := Fin 0; t := Fin 20; s := Fin 4; e := Fin 2;
                   ld := None; mh := None |}) as H.
  cbv zeta in H. destruct H as (Hf & _ & Hl & _). split.
  - apply Hf. reflexivity.
  - apply Hl. reflexivity.
Defined.

End ComponentProperties.

(* ================================================================== *)
(** * Further properties of the report-export handler *)
(* ================================================================== *)

Module HandlerProperties.
Import JS DoraQuickCheck SendResults Spec Vocabulary.
Local Open Scope string_scope.

Section Host.
Variable NumberToString : number -> string.
Variable StringToNumber : string -> number.
Variable toFixed : number -> nat -> string.
Variable toUpperCase : string -> string.
Variable now_text now_html : string.

Abbreviation ToString := (SendResults.ToString NumberToString).
Abbreviation ToNumber := (SendResults.ToNumber NumberToString StringToNumber).
Abbreviation show := (SendResults.show NumberToString).
Abbreviation show_cfr := (SendResults.show_cfr NumberToString StringToNumber).
Abbreviation show_or_NA := (SendResults.show_or_NA NumberToString).
Abbreviation show_fixed := (SendResults.show_fixed toFixed).
Abbreviation show_upper := (SendResults.show_upper toUpperCase).
Abbreviation resultsText :=
  (SendResults.resultsText NumberToString StringToNumber toFixed now_text).
Abbreviation resultsHtml :=
  (SendResults.resultsHtml NumberToString StringToNumber toFixed toUpperCase now_html).
Abbreviation try_block :=
  (SendResults.try_block NumberToString StringToNumber toFixed toUpperCase
     now_text now_html).
Abbreviation POST :=
  (SendResults.POST NumberToString StringToNumber toFixed toUpperCase
     now_text now_html).

(** Inverts a successful sequence of steps, keeping what each step
    returned. *)
Ltac invert_steps H :=
  repeat match type of H with
  | bind ?c _ = inr _ =>
      let E := fresh "E" in
      destruct c eqn:E; cbn [bind] in H; [discriminate H|]
  end.

(** Runs a sequence of steps whose results are known. *)
Ltac run_steps :=
  repeat match goal with
  | H : ?c = inr _ |- context [bind ?c _] => rewrite H; cbn [bind]
  end.

Lemma show_fixed_number (obj : Value) (k : string) (digits : nat) (s : string) :
  show_fixed obj k digits = inr s -> number_at obj k.
Proof.
  unfold SendResults.show_fixed. intro H.
  destruct (get obj k) as [x | v] eqn:E; cbn [bind] in H; [discriminate H|].
  destruct v; try discriminate H. now exists n.
Qed.

Lemma show_upper_string (obj : Value) (k : string) (s : string) :
  show_upper obj k = inr s -> string_at obj k.
Proof.
  unfold SendResults.show_upper. intro H.
  destruct (get obj k) as [x | v] eqn:E; cbn [bind] in H; [discriminate H|].
  destruct v; try discriminate H. now exists s0.
Qed.

Lemma ToString_primitive (v : Value) : primitive v -> exists s, ToString v = inr s.
Proof.
  destruct v as [ | | [|] | n | s | l | props]; simpl; intro H;
    try contradiction; eexists; reflexivity.
Qed.

Lemma show_primitive (obj : Value) (k : string) :
  primitive_at obj k -> exists s, show obj k = inr s.
Proof.
  intros (v & E & Hv). unfold SendResults.show. rewrite E. cbn [bind].
  now apply ToString_primitive.
Qed.

Lemma show_at_string (obj : Value) (k : string) :
  string_at obj k -> exists s, show obj k = inr s.
Proof.
  intros (s & E). apply show_primitive. exists (VString s). split; [exact E | exact I].
Qed.

Lemma show_fixed_at_number (obj : Value) (k : string) (digits : nat) :
  number_at obj k -> exists s, show_fixed obj k digits = inr s.
Proof.
  intros (n & E). unfold SendResults.show_fixed. rewrite E. eexists; reflexivity.
Qed.

Lemma show_upper_at_string (obj : Value) (k : string) :
  string_at obj k -> exists s, show_upper obj k = inr s.
Proof.
  intros (s & E). unfold SendResults.show_upper. rewrite E. eexists; reflexivity.
Qed.

Lemma show_cfr_primitive (metrics : Value) :
  primitive_at metrics "cfr" -> exists s, show_cfr metrics = inr s.
Proof.
  intros (v & E & Hv). unfold SendResults.show_cfr. rewrite E. cbn [bind].
  destruct (ToBoolean v); [|eexists; reflexivity].
  destruct v as [ | | [|] | n | s | l | props]; simpl in Hv; try contradiction;
    eexists; reflexivity.
Qed.

Lemma show_or_NA_primitive (results : Value) (k : string) :
  primitive_at results k -> exists s, show_or_NA results k = inr s.
Proof.
  intros (v & E & Hv). unfold SendResults.show_or_NA. rewrite E. cbn [bind].
  apply ToString_primitive. unfold or_else. destruct (ToBoolean v); [exact Hv | exact I].
Qed.

Lemma append_percent_not_NA (s : string) : s ++ "%" <> "N/A".
Proof.
  destruct s as [| a [| b [| c [| e s]]]]; simpl; intro H; discriminate H.
Qed.

(** X9.  The handler answers with status 200 only if the body parses to
    a value whose [metrics.perSquad] and [metrics.perEng] are numbers and
    whose four tier names are strings. *)
Theorem POST_success_shape (request : NextRequest) (outcome : Outcome) :
  POST request = inr outcome ->
  status (response outcome) = 200%nat ->
  exists b email results metrics,
    json request = inr b /\
    get b "email" = inr email /\
    get b "results" = inr results /\
    get b "metrics" = inr metrics /\
    number_at metrics "perSquad" /\ number_at metrics "perEng" /\
    string_at metrics "freqT" /\ string_at metrics "cfrT" /\
    string_at metrics "ltT" /\ string_at metrics "mttrT".
Proof.
  unfold SendResults.POST, try_catch. intros Hpost Hstatus.
  destruct (try_block request) as [x | ok] eqn:Etry.
  - injection Hpost as <-. discriminate Hstatus.
  - clear Hpost Hstatus. unfold SendResults.try_block in Etry.
    destruct (json request) as [x | b] eqn:Eb; cbn [bind] in Etry;
      [discriminate Etry|].
    destruct (get b "email") as [x | email] eqn:Ee; cbn [bind] in Etry;
      [discriminate Etry|].
    destruct (get b "results") as [x | results] eqn:Er; cbn [bind] in Etry;
      [discriminate Etry|].
    destruct (get b "metrics") as [x | metrics] eqn:Em; cbn [bind] in Etry;
      [discriminate Etry|].
    destruct (resultsText email results metrics) as [x | text] eqn:Et;
      cbn [bind] in Etry; [discriminate Etry|].
    destruct (resultsHtml email results metrics) as [x | html] eqn:Eh;
      cbn [bind] in Etry; [discriminate Etry|].
    clear Etry Et. unfold SendResults.resultsHtml in Eh. invert_steps Eh.
    exists b, email, results, metrics.
    repeat split; eauto using show_fixed_number, show_upper_string.
Qed.

(** X10.  A well-formed request is answered with status 200: it is
    enough that the email, the six results and [metrics.cfr] are
    primitive values, that [metrics.perSquad] and [metrics.perEng] are
    numbers and that the four tier names are strings. *)
Theorem POST_well_formed (request : NextRequest) (b email results metrics : Value) :
  json request = inr b ->
  get b "email" = inr email ->
  get b "results" = inr results ->
  get b "metrics" = inr metrics ->
  primitive email ->
  primitive_at results "deploys" -> primitive_at results "errors" ->
  primitive_at results "leadDays" -> primitive_at results "mttrHours" ->
  primitive_at results "team" -> primitive_at results "squads" ->
  number_at metrics "perSquad" -> number_at metrics "perEng" ->
  primitive_at metrics "cfr" ->
  string_at metrics "freqT" -> string_at metrics "cfrT" ->
  string_at metrics "ltT" -> string_at metrics "mttrT" ->
  exists outcome, POST request = inr outcome /\ status (response outcome) = 200%nat.
Proof.
  intros Eb Ee Er Em He Hdep Herr Hlead Hmttr Hteam Hsq Hps Hpe Hcfr Hf Hc Hl Hm.
  destruct (ToString_primitive email He) as (s0 & E0).
  destruct (show_primitive _ _ Hdep) as (s1 & E1).
  destruct (show_primitive _ _ Herr) as (s2 & E2).
  destruct (show_or_NA_primitive _ _ Hlead) as (s3 & E3).
  destruct (show_or_NA_primitive _ _ Hmttr) as (s4 & E4).
  destruct (show_primitive _ _ Hteam) as (s5 & E5).
  destruct (show_primitive _ _ Hsq) as (s6 & E6).
  destruct (show_fixed_at_number _ _ 1 Hps) as (s7 & E7).
  destruct (show_fixed_at_number _ _ 2 Hpe) as (s8 & E8).
  destruct (show_cfr_primitive _ Hcfr) as (s9 & E9).
  destruct (show_at_string _ _ Hf) as (t1 & F1).
  destruct (show_at_string _ _ Hc) as (t2 & F2).
  destruct (show_at_string _ _ Hl) as (t3 & F3).
  destruct (show_at_string _ _ Hm) as (t4 & F4).
  destruct (show_upper_at_string _ _ Hf) as (u1 & U1).
  destruct (show_upper_at_string _ _ Hc) as (u2 & U2).
  destruct (show_upper_at_string _ _ Hl) as (u3 & U3).
  destruct (show_upper_at_string _ _ Hm) as (u4 & U4).
  unfold SendResults.POST, SendResults.try_block, SendResults.resultsText,
    SendResults.resultsHtml.
  run_steps. cbn [try_catch]. eexists. split; reflexivity.
Qed.

(** X11.  Whenever the HTML report is built, the text report is built
    too and shows the same values, apart from the time stamp.  The
    converse fails: with a tier name that is a number the text report is
    built and the HTML report is not. *)
Theorem html_report_implies_text (email results metrics : Value) (html : string) :
  (resultsHtml email results metrics = inr html ->
   exists c u,
     html = html_template c u /\
     c_generated c = now_html /\
     resultsText email results metrics
     = inr (text_template (with_generated now_text c))) /\
  (let odd := VObject [("perSquad", VNumber (Fin 3)); ("perEng", VNumber (Fin 1));
                       ("freqT", VNumber (Fin 1))] in
   (exists text, resultsText (VString "a@b.c") (VObject []) odd = inr text) /\
   resultsHtml (VString "a@b.c") (VObject []) odd = inl TypeError).
Proof.
  split.
  - unfold SendResults.resultsHtml. intro H. invert_steps H.
    injection H as H. subst html.
    eexists. eexists. split; [reflexivity|]. split; [reflexivity|].
    unfold SendResults.resultsText. run_steps. reflexivity.
  - cbv zeta. split; [eexists|]; reflexivity.
Qed.

(** X12.  The CFR cell of a report reads N/A exactly when [metrics.cfr]
    can be read and is falsy (missing, null, 0, NaN, false or the empty
    string).  A truthy value that converts to a number is shown as the
    nearest integer to its hundredfold, followed by the percent sign; a
    truthy value whose conversion throws makes the expression throw, as
    an object with an own [toString] property does.  So every CFR cell
    that is produced is N/A or ends with the percent sign. *)
Theorem cfr_cell_NA_iff (metrics : Value) :
  (show_cfr metrics = inr "N/A" <->
   exists v, get metrics "cfr" = inr v /\ ToBoolean v = false) /\
  (forall v, get metrics "cfr" = inr v -> ToBoolean v = true ->
     show_cfr metrics
     = (n <- ToNumber v ;; ret (NumberToString (Math_round (n * Fin 100)%js) ++ "%"))) /\
  (forall cell, show_cfr metrics = inr cell ->
     cell = "N/A" \/ exists digits, cell = digits ++ "%") /\
  show_cfr (VObject [("cfr", VObject [("toString", VNumber (Fin 1))])]) = inl TypeError.
Proof.
  refine (conj _ (conj _ (conj _ eq_refl))).
  - unfold SendResults.show_cfr. split.
    + intro H. destruct (get metrics "cfr") as [x | v] eqn:E; cbn [bind] in H;
        [discriminate H|].
      exists v. split; [reflexivity|].
      destruct (ToBoolean v); [|reflexivity].
      destruct (SendResults.ToNumber NumberToString StringToNumber v) as [x | n];
        cbn [bind] in H; [discriminate H|].
      injection H as H. now apply append_percent_not_NA in H.
    + intros (v & E & Hv). rewrite E. cbn [bind]. now rewrite Hv.
  - intros v E Hv. unfold SendResults.show_cfr. rewrite E. cbn [bind].
    now rewrite Hv.
  - intros cell H. unfold SendResults.show_cfr in H.
    destruct (get metrics "cfr") as [x | v] eqn:E; cbn [bind] in H;
      [discriminate H|].
    destruct (ToBoolean v).
    + destruct (SendResults.ToNumber NumberToString StringToNumber v) as [x | n];
        cbn [bind] in H; [discriminate H|].
      injection H as <-. right. eexists. reflexivity.
    + injection H as <-. now left.
Qed.

End Host.

Lemma POST_well_formed_witness :
  exists outcome,
    SendResults.POST (fun _ => "0") (fun _ => NaN) (fun _ _ => "0") (fun s => s)
      "now" "now" example_request = inr outcome /\
    status (response outcome) = 200%nat.
Proof.
  apply (POST_well_formed (fun _ => "0") (fun _ => NaN) (fun _ _ => "0") (fun s => s)
           "now" "now" example_request _ example_email example_results example_metrics
           eq_refl eq_refl eq_refl eq_refl I);
    try (eexists; split; [reflexivity | exact I]);
    eexists; reflexivity.
Defined.


Lemma html_report_implies_text_witness :
  exists c u,
    report_of example_resultsHtml = html_template c u /\
    c_generated c = "now" /\
    example_resultsText = inr (text_template (with_generated "now" c)).
Proof.
  apply (html_report_implies_text (fun _ => "0") (fun _ => NaN) (fun _ _ => "0")
           (fun s => s) "now" "now" example_email example_results example_metrics).
  reflexivity.
Defined.

Lemma POST_success_shape_witness :
  number_at example_metrics "perSquad" /\ string_at example_metrics "freqT".
Proof.
  assert (Hpost : exists outcome,
             example_POST example_request = inr outcome /\
             status (response outcome) = 200%nat)
    by (eexists; split; reflexivity).
  destruct Hpost as (outcome & Hpost & Hstatus).
  destruct (POST_success_shape (fun _ => "0") (fun _ => NaN) (fun _ _ => "0")
              (fun s => s) "now" "now" example_request outcome Hpost Hstatus)
    as (b & email & results & metrics & Eb & Ee & Er & Em & H1 & _ & H3 & _).
  injection Eb as <-. injection Em as <-. exact (conj H1 H3).
Defined.

Lemma cfr_cell_NA_iff_witness :
  SendResults.show_cfr (fun _ => "0") (fun _ => NaN) example_metrics = inr "N/A" /\
  (let metrics := VObject [("cfr", VNumber (Fin 0.25))] in
   SendResults.show_cfr (fun _ => "25") (fun _ => NaN) metrics = inr "25%").
Proof.
  split.
  - apply (proj1 (cfr_cell_NA_iff (fun _ => "0") (fun _ => NaN) example_metrics)).
    exists (VNumber (Fin 0)). split; reflexivity.
  - cbv zeta.
    rewrite (proj1 (proj2 (cfr_cell_NA_iff (fun _ => "25") (fun _ => NaN)
                             (VObject [("cfr", VNumber (Fin 0.25))])))
               (VNumber (Fin 0.25)) eq_refl eq_refl).
    reflexivity.
Defined.

End HandlerProperties.
